(** * Connection adoption (lib/core-net/adopt.c) -- a shallow embedding

    The C functions of adopt.c are written as Rocq functions over an
    explicit program state.

    - Integers are [Z]; where the source converts to [unsigned int] the
      wrap-around is written out with [to_uint].  Members whose declared
      type is in private-lib-core.h (such as [tsi], [count_wsi_allocated])
      are kept as unbounded [Z].
    - A pointer to a connection object ([struct lws *]) is a key of a
      finite map from addresses to objects, [NULL] is [None]; reading or
      writing through a pointer that is not allocated is [Undefined].
    - A call that leaves adopt.c is recorded in an event trace, most recent
      event first; what such a call answers is read from a record of
      collaborators.  Logging ([lwsl_err] and the like) and the hints
      passed to [getaddrinfo] are left out.
    - The constants and macros of the headers and the build options
      ([#if defined(...)]) are fields of a record the functions take.
    - [lws_adopt_descriptor_vhost] returns [NULL] on four different paths;
      the model first computes which way out was taken ([adopt_exit]) and
      then the pointer the C function returns. *)

From stdpp Require Import gmap strings list fin_maps.
From Stdlib Require Import ZArith Lia.

Local Open Scope Z_scope.

(** ** Machine integers *)

Definition UINT_MAX : Z := 2 ^ 32 - 1.

(** Conversion to [unsigned int]: reduction modulo 2^32. *)
Definition to_uint (x : Z) : Z := x `mod` 2 ^ 32.

(** ** Data model *)

(** A [struct lws *]. *)
Definition wsi_ptr := nat.

Record lws_pollfd := {
  pfd_fd : Z;
  pfd_events : Z;
  pfd_revents : Z;
}.

(** [struct lws_context_per_thread]: the members adopt.c reads or writes. *)
Record lws_context_per_thread := {
  fds_count : Z;
  fds : list lws_pollfd;
  dll_buflist_owner : list wsi_ptr;
}.

(** [struct lws_context]; [pt] is the fixed array of per-thread contexts,
    of which the first [count_threads] are in use. *)
Record lws_context := {
  count_threads : Z;
  fd_limit_per_thread : Z;
  pt : list lws_context_per_thread;
  count_wsi_allocated : Z;
  ip_limit_wsi : Z;
}.

(** ** lws_get_idlest_tsi *)

(** The body of the [for] loop, run [k] more times from index [n] with the
    current values of [lowest] and [hit].  Reading [pt[n]] past the end of
    the array has no defined result ([None]). *)
Fixpoint idlest_loop (context : lws_context) (k n : nat) (lowest hit : Z)
  : option Z :=
  match k with
  | O => Some hit
  | S k' =>
    match pt context !! n with
    | None => None
    | Some p =>
      if negb (to_uint (fds_count p) =?
               to_uint (fd_limit_per_thread context - 1)) &&
         (to_uint (fds_count p) <? lowest)
      then idlest_loop context k' (S n) (to_uint (fds_count p)) (Z.of_nat n)
      else idlest_loop context k' (S n) lowest hit
    end
  end.

Definition lws_get_idlest_tsi (context : lws_context) : option Z :=
  idlest_loop context (Z.to_nat (count_threads context)) 0 UINT_MAX (-1).


(** ** Vhosts, protocols, roles and connection objects *)

(** [struct lws_protocols]: the name and the size of the per-connection user
    memory; the callback is a collaborator (see below). *)
Record lws_protocols := {
  prot_name : string;
  per_session_data_size : Z;
}.

(** [struct lws_vhost]: [protocols] is the vhost's protocol array, a pointer
    into it is an index. *)
Record lws_vhost := {
  vh_name : string;
  protocols : list lws_protocols;
  vh_tls_use_ssl : bool;
}.

(** [struct lws_role_ops]: [adoption_cb] holds the callback reasons for a
    client (index 0) and a server (index 1) connection; 0 means none. *)
Record lws_role_ops := {
  role_name : string;
  adoption_cb : Z * Z;
}.

(** [struct lws], the connection object: the members adopt.c touches.
    [desc] is the union of socket and file descriptor, one integer on a
    POSIX build.  [wsi_context] tells whether the context pointer is set
    (there is one context).  [protocol] points into the vhost's protocol
    array and [user_space] to the protocol's user memory. *)
Record lws := {
  wsistate : Z;
  tsi : Z;
  vhost : option lws_vhost;
  wsi_context : bool;
  pending_timeout : Z;
  rxflow_change_to : Z;
  hdr_parsing_completed : Z;
  tls_use_ssl : bool;
  protocol : option nat;
  user_space : option nat;
  desc : Z;
  position_in_fds_table : Z;
  parent : option wsi_ptr;
  sibling_list : option wsi_ptr;
  child_list : option wsi_ptr;
  undergoing_init_from_other_pt : Z;
  role_ops : option lws_role_ops;
  peer : option nat;
  buflist : list (list Z);
  http_ah : bool;
}.

(** What [lws_zalloc] hands out: every member zero or [NULL]. *)
Definition lws_zeroed : lws := {|
  wsistate := 0;
  tsi := 0;
  vhost := None;
  wsi_context := false;
  pending_timeout := 0;
  rxflow_change_to := 0;
  hdr_parsing_completed := 0;
  tls_use_ssl := false;
  protocol := None;
  user_space := None;
  desc := 0;
  position_in_fds_table := 0;
  parent := None;
  sibling_list := None;
  child_list := None;
  undergoing_init_from_other_pt := 0;
  role_ops := None;
  peer := None;
  buflist := [];
  http_ah := false;
|}.

(** Assignments to single members. *)
Definition set_wsistate (v : Z) (x : lws) : lws :=
  {| wsistate := v; tsi := tsi x; vhost := vhost x; wsi_context := wsi_context
  x; pending_timeout := pending_timeout x; rxflow_change_to :=
  rxflow_change_to x; hdr_parsing_completed := hdr_parsing_completed x;
  tls_use_ssl := tls_use_ssl x; protocol := protocol x; user_space :=
  user_space x; desc := desc x; position_in_fds_table := position_in_fds_table
  x; parent := parent x; sibling_list := sibling_list x; child_list :=
  child_list x; undergoing_init_from_other_pt := undergoing_init_from_other_pt
  x; role_ops := role_ops x; peer := peer x; buflist := buflist x; http_ah :=
  http_ah x |}.
Definition set_tsi (v : Z) (x : lws) : lws :=
  {| wsistate := wsistate x; tsi := v; vhost := vhost x; wsi_context :=
  wsi_context x; pending_timeout := pending_timeout x; rxflow_change_to :=
  rxflow_change_to x; hdr_parsing_completed := hdr_parsing_completed x;
  tls_use_ssl := tls_use_ssl x; protocol := protocol x; user_space :=
  user_space x; desc := desc x; position_in_fds_table := position_in_fds_table
  x; parent := parent x; sibling_list := sibling_list x; child_list :=
  child_list x; undergoing_init_from_other_pt := undergoing_init_from_other_pt
  x; role_ops := role_ops x; peer := peer x; buflist := buflist x; http_ah :=
  http_ah x |}.
Definition set_vhost (v : option lws_vhost) (x : lws) : lws :=
  {| wsistate := wsistate x; tsi := tsi x; vhost := v; wsi_context :=
  wsi_context x; pending_timeout := pending_timeout x; rxflow_change_to :=
  rxflow_change_to x; hdr_parsing_completed := hdr_parsing_completed x;
  tls_use_ssl := tls_use_ssl x; protocol := protocol x; user_space :=
  user_space x; desc := desc x; position_in_fds_table := position_in_fds_table
  x; parent := parent x; sibling_list := sibling_list x; child_list :=
  child_list x; undergoing_init_from_other_pt := undergoing_init_from_other_pt
  x; role_ops := role_ops x; peer := peer x; buflist := buflist x; http_ah :=
  http_ah x |}.
Definition set_wsi_context (v : bool) (x : lws) : lws :=
  {| wsistate := wsistate x; tsi := tsi x; vhost := vhost x; wsi_context := v;
  pending_timeout := pending_timeout x; rxflow_change_to := rxflow_change_to
  x; hdr_parsing_completed := hdr_parsing_completed x; tls_use_ssl :=
  tls_use_ssl x; protocol := protocol x; user_space := user_space x; desc :=
  desc x; position_in_fds_table := position_in_fds_table x; parent := parent
  x; sibling_list := sibling_list x; child_list := child_list x;
  undergoing_init_from_other_pt := undergoing_init_from_other_pt x; role_ops
  := role_ops x; peer := peer x; buflist := buflist x; http_ah := http_ah x
  |}.
Definition set_pending_timeout (v : Z) (x : lws) : lws :=
  {| wsistate := wsistate x; tsi := tsi x; vhost := vhost x; wsi_context :=
  wsi_context x; pending_timeout := v; rxflow_change_to := rxflow_change_to x;
  hdr_parsing_completed := hdr_parsing_completed x; tls_use_ssl := tls_use_ssl
  x; protocol := protocol x; user_space := user_space x; desc := desc x;
  position_in_fds_table := position_in_fds_table x; parent := parent x;
  sibling_list := sibling_list x; child_list := child_list x;
  undergoing_init_from_other_pt := undergoing_init_from_other_pt x; role_ops
  := role_ops x; peer := peer x; buflist := buflist x; http_ah := http_ah x
  |}.
Definition set_rxflow_change_to (v : Z) (x : lws) : lws :=
  {| wsistate := wsistate x; tsi := tsi x; vhost := vhost x; wsi_context :=
  wsi_context x; pending_timeout := pending_timeout x; rxflow_change_to := v;
  hdr_parsing_completed := hdr_parsing_completed x; tls_use_ssl := tls_use_ssl
  x; protocol := protocol x; user_space := user_space x; desc := desc x;
  position_in_fds_table := position_in_fds_table x; parent := parent x;
  sibling_list := sibling_list x; child_list := child_list x;
  undergoing_init_from_other_pt := undergoing_init_from_other_pt x; role_ops
  := role_ops x; peer := peer x; buflist := buflist x; http_ah := http_ah x
  |}.
Definition set_hdr_parsing_completed (v : Z) (x : lws) : lws :=
  {| wsistate := wsistate x; tsi := tsi x; vhost := vhost x; wsi_context :=
  wsi_context x; pending_timeout := pending_timeout x; rxflow_change_to :=
  rxflow_change_to x; hdr_parsing_completed := v; tls_use_ssl := tls_use_ssl
  x; protocol := protocol x; user_space := user_space x; desc := desc x;
  position_in_fds_table := position_in_fds_table x; parent := parent x;
  sibling_list := sibling_list x; child_list := child_list x;
  undergoing_init_from_other_pt := undergoing_init_from_other_pt x; role_ops
  := role_ops x; peer := peer x; buflist := buflist x; http_ah := http_ah x
  |}.
Definition set_tls_use_ssl (v : bool) (x : lws) : lws :=
  {| wsistate := wsistate x; tsi := tsi x; vhost := vhost x; wsi_context :=
  wsi_context x; pending_timeout := pending_timeout x; rxflow_change_to :=
  rxflow_change_to x; hdr_parsing_completed := hdr_parsing_completed x;
  tls_use_ssl := v; protocol := protocol x; user_space := user_space x; desc
  := desc x; position_in_fds_table := position_in_fds_table x; parent :=
  parent x; sibling_list := sibling_list x; child_list := child_list x;
  undergoing_init_from_other_pt := undergoing_init_from_other_pt x; role_ops
  := role_ops x; peer := peer x; buflist := buflist x; http_ah := http_ah x
  |}.
Definition set_protocol (v : option nat) (x : lws) : lws :=
  {| wsistate := wsistate x; tsi := tsi x; vhost := vhost x; wsi_context :=
  wsi_context x; pending_timeout := pending_timeout x; rxflow_change_to :=
  rxflow_change_to x; hdr_parsing_completed := hdr_parsing_completed x;
  tls_use_ssl := tls_use_ssl x; protocol := v; user_space := user_space x;
  desc := desc x; position_in_fds_table := position_in_fds_table x; parent :=
  parent x; sibling_list := sibling_list x; child_list := child_list x;
  undergoing_init_from_other_pt := undergoing_init_from_other_pt x; role_ops
  := role_ops x; peer := peer x; buflist := buflist x; http_ah := http_ah x
  |}.
Definition set_user_space (v : option nat) (x : lws) : lws :=
  {| wsistate := wsistate x; tsi := tsi x; vhost := vhost x; wsi_context :=
  wsi_context x; pending_timeout := pending_timeout x; rxflow_change_to :=
  rxflow_change_to x; hdr_parsing_completed := hdr_parsing_completed x;
  tls_use_ssl := tls_use_ssl x; protocol := protocol x; user_space := v; desc
  := desc x; position_in_fds_table := position_in_fds_table x; parent :=
  parent x; sibling_list := sibling_list x; child_list := child_list x;
  undergoing_init_from_other_pt := undergoing_init_from_other_pt x; role_ops
  := role_ops x; peer := peer x; buflist := buflist x; http_ah := http_ah x
  |}.
Definition set_desc (v : Z) (x : lws) : lws :=
  {| wsistate := wsistate x; tsi := tsi x; vhost := vhost x; wsi_context :=
  wsi_context x; pending_timeout := pending_timeout x; rxflow_change_to :=
  rxflow_change_to x; hdr_parsing_completed := hdr_parsing_completed x;
  tls_use_ssl := tls_use_ssl x; protocol := protocol x; user_space :=
  user_space x; desc := v; position_in_fds_table := position_in_fds_table x;
  parent := parent x; sibling_list := sibling_list x; child_list := child_list
  x; undergoing_init_from_other_pt := undergoing_init_from_other_pt x;
  role_ops := role_ops x; peer := peer x; buflist := buflist x; http_ah :=
  http_ah x |}.
Definition set_position_in_fds_table (v : Z) (x : lws) : lws :=
  {| wsistate := wsistate x; tsi := tsi x; vhost := vhost x; wsi_context :=
  wsi_context x; pending_timeout := pending_timeout x; rxflow_change_to :=
  rxflow_change_to x; hdr_parsing_completed := hdr_parsing_completed x;
  tls_use_ssl := tls_use_ssl x; protocol := protocol x; user_space :=
  user_space x; desc := desc x; position_in_fds_table := v; parent := parent
  x; sibling_list := sibling_list x; child_list := child_list x;
  undergoing_init_from_other_pt := undergoing_init_from_other_pt x; role_ops
  := role_ops x; peer := peer x; buflist := buflist x; http_ah := http_ah x
  |}.
Definition set_parent (v : option wsi_ptr) (x : lws) : lws :=
  {| wsistate := wsistate x; tsi := tsi x; vhost := vhost x; wsi_context :=
  wsi_context x; pending_timeout := pending_timeout x; rxflow_change_to :=
  rxflow_change_to x; hdr_parsing_completed := hdr_parsing_completed x;
  tls_use_ssl := tls_use_ssl x; protocol := protocol x; user_space :=
  user_space x; desc := desc x; position_in_fds_table := position_in_fds_table
  x; parent := v; sibling_list := sibling_list x; child_list := child_list x;
  undergoing_init_from_other_pt := undergoing_init_from_other_pt x; role_ops
  := role_ops x; peer := peer x; buflist := buflist x; http_ah := http_ah x
  |}.
Definition set_sibling_list (v : option wsi_ptr) (x : lws) : lws :=
  {| wsistate := wsistate x; tsi := tsi x; vhost := vhost x; wsi_context :=
  wsi_context x; pending_timeout := pending_timeout x; rxflow_change_to :=
  rxflow_change_to x; hdr_parsing_completed := hdr_parsing_completed x;
  tls_use_ssl := tls_use_ssl x; protocol := protocol x; user_space :=
  user_space x; desc := desc x; position_in_fds_table := position_in_fds_table
  x; parent := parent x; sibling_list := v; child_list := child_list x;
  undergoing_init_from_other_pt := undergoing_init_from_other_pt x; role_ops
  := role_ops x; peer := peer x; buflist := buflist x; http_ah := http_ah x
  |}.
Definition set_child_list (v : option wsi_ptr) (x : lws) : lws :=
  {| wsistate := wsistate x; tsi := tsi x; vhost := vhost x; wsi_context :=
  wsi_context x; pending_timeout := pending_timeout x; rxflow_change_to :=
  rxflow_change_to x; hdr_parsing_completed := hdr_parsing_completed x;
  tls_use_ssl := tls_use_ssl x; protocol := protocol x; user_space :=
  user_space x; desc := desc x; position_in_fds_table := position_in_fds_table
  x; parent := parent x; sibling_list := sibling_list x; child_list := v;
  undergoing_init_from_other_pt := undergoing_init_from_other_pt x; role_ops
  := role_ops x; peer := peer x; buflist := buflist x; http_ah := http_ah x
  |}.
Definition set_undergoing_init_from_other_pt (v : Z) (x : lws) : lws :=
  {| wsistate := wsistate x; tsi := tsi x; vhost := vhost x; wsi_context :=
  wsi_context x; pending_timeout := pending_timeout x; rxflow_change_to :=
  rxflow_change_to x; hdr_parsing_completed := hdr_parsing_completed x;
  tls_use_ssl := tls_use_ssl x; protocol := protocol x; user_space :=
  user_space x; desc := desc x; position_in_fds_table := position_in_fds_table
  x; parent := parent x; sibling_list := sibling_list x; child_list :=
  child_list x; undergoing_init_from_other_pt := v; role_ops := role_ops x;
  peer := peer x; buflist := buflist x; http_ah := http_ah x |}.
Definition set_role_ops (v : option lws_role_ops) (x : lws) : lws :=
  {| wsistate := wsistate x; tsi := tsi x; vhost := vhost x; wsi_context :=
  wsi_context x; pending_timeout := pending_timeout x; rxflow_change_to :=
  rxflow_change_to x; hdr_parsing_completed := hdr_parsing_completed x;
  tls_use_ssl := tls_use_ssl x; protocol := protocol x; user_space :=
  user_space x; desc := desc x; position_in_fds_table := position_in_fds_table
  x; parent := parent x; sibling_list := sibling_list x; child_list :=
  child_list x; undergoing_init_from_other_pt := undergoing_init_from_other_pt
  x; role_ops := v; peer := peer x; buflist := buflist x; http_ah := http_ah x
  |}.
Definition set_peer (v : option nat) (x : lws) : lws :=
  {| wsistate := wsistate x; tsi := tsi x; vhost := vhost x; wsi_context :=
  wsi_context x; pending_timeout := pending_timeout x; rxflow_change_to :=
  rxflow_change_to x; hdr_parsing_completed := hdr_parsing_completed x;
  tls_use_ssl := tls_use_ssl x; protocol := protocol x; user_space :=
  user_space x; desc := desc x; position_in_fds_table := position_in_fds_table
  x; parent := parent x; sibling_list := sibling_list x; child_list :=
  child_list x; undergoing_init_from_other_pt := undergoing_init_from_other_pt
  x; role_ops := role_ops x; peer := v; buflist := buflist x; http_ah :=
  http_ah x |}.
Definition set_buflist (v : list (list Z)) (x : lws) : lws :=
  {| wsistate := wsistate x; tsi := tsi x; vhost := vhost x; wsi_context :=
  wsi_context x; pending_timeout := pending_timeout x; rxflow_change_to :=
  rxflow_change_to x; hdr_parsing_completed := hdr_parsing_completed x;
  tls_use_ssl := tls_use_ssl x; protocol := protocol x; user_space :=
  user_space x; desc := desc x; position_in_fds_table := position_in_fds_table
  x; parent := parent x; sibling_list := sibling_list x; child_list :=
  child_list x; undergoing_init_from_other_pt := undergoing_init_from_other_pt
  x; role_ops := role_ops x; peer := peer x; buflist := v; http_ah := http_ah
  x |}.
Definition set_http_ah (v : bool) (x : lws) : lws :=
  {| wsistate := wsistate x; tsi := tsi x; vhost := vhost x; wsi_context :=
  wsi_context x; pending_timeout := pending_timeout x; rxflow_change_to :=
  rxflow_change_to x; hdr_parsing_completed := hdr_parsing_completed x;
  tls_use_ssl := tls_use_ssl x; protocol := protocol x; user_space :=
  user_space x; desc := desc x; position_in_fds_table := position_in_fds_table
  x; parent := parent x; sibling_list := sibling_list x; child_list :=
  child_list x; undergoing_init_from_other_pt := undergoing_init_from_other_pt
  x; role_ops := role_ops x; peer := peer x; buflist := buflist x; http_ah :=
  v |}.

(** ** What the headers define

    adopt.c includes private-lib-core.h; the values of its constants, its
    macros and the build options are not part of adopt.c and are taken as
    given. *)
Record lws_header := {
  (* lws_adoption_type bits *)
  LWS_ADOPT_HTTP : Z;
  LWS_ADOPT_SOCKET : Z;
  LWS_ADOPT_ALLOW_SSL : Z;
  LWS_ADOPT_RAW_SOCKET_UDP : Z;
  _LWS_ADOPT_FINISH : Z;
  LWS_CAUDP_BIND : Z;
  (* wsistate *)
  LWSIFR_SERVER : Z;
  LRS_UNCONNECTED : Z;
  lwsi_set_state : Z -> Z -> Z;      (* new wsistate from old wsistate and state *)
  lwsi_state : Z -> Z;
  lwsi_role_server : Z -> bool;
  (* other constants *)
  NO_PENDING_TIMEOUT : Z;
  LWS_RXFLOW_ALLOW : Z;
  LWS_SOCK_INVALID : Z;
  LWS_NO_FDS_POS : Z;
  LWS_POLLIN : Z;
  LWS_CALLBACK_WSI_CREATE : Z;
  LWS_CALLBACK_SERVER_NEW_CLIENT_INSTANTIATED : Z;
  LWS_SSL_ENABLED : lws_vhost -> bool;
  (* build options *)
  LWS_MAX_SMP : Z;
  LWS_WITH_PEER_LIMITS : bool;
  LWS_WITH_TLS : bool;
  WIN32 : bool;
  LWS_AMAZON_RTOS : bool;
  LWS_WITHOUT_SERVER : bool;
  LWS_PLAT_OPTEE : bool;
}.

(** ** Program state *)

(** [struct lws_peer]: the live-connection counter of one remote address. *)
Record lws_peer := {
  count_wsi : Z;
}.

(** The data adopt.c works on: the context, the connection objects that are
    allocated, the peer records and the vhost list of the context. *)
Record lws_state := {
  the_context : lws_context;
  wsis : gmap wsi_ptr lws;
  peers : gmap nat lws_peer;
  vhost_list : list lws_vhost;
}.

Inductive lws_stat :=
| LWSSTATS_C_PEER_LIMIT_WSI_DENIED
| LWSSTATS_C_CONNECTIONS.

(** One entry of the list [getaddrinfo] returns. *)
Record addrinfo := {
  ai_family : Z;
  ai_socktype : Z;
  ai_protocol : Z;
}.

(** Calls that leave adopt.c, and the stores to the member
    [undergoing_init_from_other_pt], which another service thread may read
    while the adoption runs. *)
Inductive event :=
| Ev_stats_bump (tsi : Z) (what : lws_stat)
| Ev_callback (prot : nat) (wsi : wsi_ptr) (reason : Z) (user : option nat)
| Ev_compatible_close (fd : Z)
| Ev_vhost_bind_wsi (wsi : wsi_ptr)
| Ev_vhost_unbind_wsi (wsi : wsi_ptr)
| Ev_peer_add_wsi (peer : nat) (wsi : wsi_ptr)
| Ev_plat_set_nonblocking (fd : Z)
| Ev_role_call_adoption_bind (wsi : wsi_ptr) (type : Z)
| Ev_event_loop_accept (wsi : wsi_ptr)
| Ev_undergoing_init_from_other_pt (wsi : wsi_ptr) (v : Z)
| Ev_pt_lock (tsi : Z)
| Ev_pt_unlock (tsi : Z)
| Ev_insert_wsi_socket_into_fds (wsi : wsi_ptr)
| Ev_server_socket_service_ssl (wsi : wsi_ptr) (fd : Z)
| Ev_cancel_service_pt (wsi : wsi_ptr)
| Ev_close_free_wsi (wsi : wsi_ptr)
| Ev_free_user_space (mem : nat)
| Ev_free_wsi (wsi : wsi_ptr)
| Ev_getaddrinfo (port : Z)
| Ev_socket (ai : addrinfo)
| Ev_bind (fd : Z)
| Ev_freeaddrinfo
| Ev_buflist_append_segment (wsi : wsi_ptr) (len : Z)
| Ev_header_table_attach (wsi : wsi_ptr)
| Ev_service_fd_tsi (tsi : Z) (pfd : lws_pollfd).

(** The state together with the log of events, most recent event first. *)
Record world := {
  st : lws_state;
  trace : list event;
}.

(** What [lws_role_call_adoption_bind] leaves behind: its return value, and
    the state word and role of the connection object. *)
Record role_binding := {
  rb_ret : Z;
  rb_wsistate : Z;
  rb_role_ops : option lws_role_ops;
}.

(** ** Collaborators

    Functions adopt.c calls and does not define.  A collaborator whose
    effect on the state adopt.c does not depend on is given by its return
    value; the teardown, the poll-table insertion, the TLS service and the
    fd service are given as functions on the state. *)
Record collaborators := {
  (* lws_zalloc(sizeof(struct lws)): does the allocation succeed *)
  lws_zalloc_ok : lws_state -> bool;
  (* lws_get_or_create_peer: the peer record of the socket's remote
     address, if it has one *)
  peer_of_sockfd : Z -> option nat;
  (* protocols[prot].callback(wsi, reason, user, NULL, 0) of a vhost *)
  protocol_callback : lws_vhost -> nat -> wsi_ptr -> Z -> option nat -> Z;
  lws_plat_set_nonblocking : Z -> Z;
  (* the allocation inside lws_ensure_user_space *)
  user_space_alloc : wsi_ptr -> Z -> option nat;
  lws_role_call_adoption_bind : lws -> Z -> option string -> role_binding;
  (* context->event_loop_ops->accept, a function pointer that may be NULL *)
  event_loop_accept : option (lws -> Z);
  insert_wsi_socket_into_fds : lws_state -> wsi_ptr -> Z * lws_state;
  lws_server_socket_service_ssl : lws_state -> wsi_ptr -> Z -> Z * lws_state;
  lws_close_free_wsi : lws_state -> wsi_ptr -> lws_state;
  (* what lws_buflist_append_segment(&wsi->buflist, buf, len) returns *)
  buflist_append_ret : lws_state -> wsi_ptr -> Z -> Z;
  lws_header_table_attach : lws_state -> wsi_ptr -> Z;
  lws_service_fd_tsi : lws_state -> lws_pollfd -> Z -> Z * lws_state;
  getaddrinfo : Z -> Z * list addrinfo;
  socket : addrinfo -> Z;
  bind : Z -> addrinfo -> Z;
}.

(** ** A state monad with undefined behaviour *)

Inductive outcome (A : Type) : Type :=
| Done (a : A) (w : world)
| Undefined.
Arguments Done {A} a w.
Arguments Undefined {A}.

Definition M (A : Type) : Type := world -> outcome A.

Definition ret {A : Type} (a : A) : M A := fun w => Done a w.

Definition bind_M {A B : Type} (m : M A) (f : A -> M B) : M B :=
  fun w => match m w with
           | Done a w' => f a w'
           | Undefined => Undefined
           end.

Definition undefined {A : Type} : M A := fun _ => Undefined.

Declare Scope lws_scope.
Delimit Scope lws_scope with lws.
Notation "'let*' x ':=' c1 'in' c2" := (bind_M c1 (fun x => c2))
  (at level 10, x name, c1 at level 100, c2 at level 200) : lws_scope.
Notation "c1 ';;' c2" := (bind_M c1 (fun _ => c2))
  (at level 100, c2 at level 200, right associativity) : lws_scope.
Local Open Scope lws_scope.

Definition emit (e : event) : M unit :=
  fun w => Done tt {| st := st w; trace := e :: trace w |}.

Definition get_state : M lws_state := fun w => Done (st w) w.

Definition put_state (s : lws_state) : M unit :=
  fun w => Done tt {| st := s; trace := trace w |}.

Definition get_context : M lws_context :=
  let* s := get_state in ret (the_context s).

Definition put_context (c : lws_context) : M unit :=
  let* s := get_state in
  put_state {| the_context := c; wsis := wsis s; peers := peers s;
               vhost_list := vhost_list s |}.

Definition put_wsis (m : gmap wsi_ptr lws) : M unit :=
  let* s := get_state in
  put_state {| the_context := the_context s; wsis := m; peers := peers s;
               vhost_list := vhost_list s |}.

Definition put_peers (m : gmap nat lws_peer) : M unit :=
  let* s := get_state in
  put_state {| the_context := the_context s; wsis := wsis s; peers := m;
               vhost_list := vhost_list s |}.

(** [*wsi]: reading through a pointer that is not allocated is undefined. *)
Definition load (wsi : wsi_ptr) : M lws :=
  let* s := get_state in
  match wsis s !! wsi with
  | Some x => ret x
  | None => undefined
  end.

(** [wsi->member = v], as [store wsi (set_member v)]. *)
Definition store (wsi : wsi_ptr) (f : lws -> lws) : M unit :=
  let* s := get_state in
  match wsis s !! wsi with
  | Some x => put_wsis (<[wsi := f x]> (wsis s))
  | None => undefined
  end.

Definition when (b : bool) (m : M unit) : M unit :=
  if b then m else ret tt.

(** [x & m] is nonzero. *)
Definition has_flag (x m : Z) : bool := negb (Z.land x m =? 0).

(** [context->count_wsi_allocated = v]. *)
Definition set_count_wsi_allocated (v : Z) (c : lws_context) : lws_context :=
  {| count_threads := count_threads c;
     fd_limit_per_thread := fd_limit_per_thread c;
     pt := pt c; count_wsi_allocated := v; ip_limit_wsi := ip_limit_wsi c |}.

Definition set_pt (v : list lws_context_per_thread) (c : lws_context)
  : lws_context :=
  {| count_threads := count_threads c;
     fd_limit_per_thread := fd_limit_per_thread c;
     pt := v; count_wsi_allocated := count_wsi_allocated c;
     ip_limit_wsi := ip_limit_wsi c |}.

Definition set_fds (v : list lws_pollfd) (p : lws_context_per_thread)
  : lws_context_per_thread :=
  {| fds_count := fds_count p; fds := v;
     dll_buflist_owner := dll_buflist_owner p |}.

Definition set_dll_buflist_owner (v : list wsi_ptr) (p : lws_context_per_thread)
  : lws_context_per_thread :=
  {| fds_count := fds_count p; fds := fds p; dll_buflist_owner := v |}.

Definition set_pfd_revents (v : Z) (p : lws_pollfd) : lws_pollfd :=
  {| pfd_fd := pfd_fd p; pfd_events := pfd_events p; pfd_revents := v |}.

(** ** The functions of adopt.c *)

Section adopt.
Variable H : lws_header.
Variable E : collaborators.

(** *** Calls into the rest of the library *)

Definition compatible_close (fd : Z) : M unit :=
  emit (Ev_compatible_close fd).

Definition lws_stats_bump (tsi : Z) (what : lws_stat) : M unit :=
  emit (Ev_stats_bump tsi what).

(** [lws_zalloc(sizeof(struct lws), ...)]: a new, zeroed connection object
    at an address that was not allocated, or [NULL]. *)
Definition lws_zalloc_wsi : M (option wsi_ptr) :=
  let* s := get_state in
  if lws_zalloc_ok E s then
    let p := fresh (dom (wsis s)) in
    put_wsis (<[p := lws_zeroed]> (wsis s));;
    ret (Some p)
  else ret None.

(** [lws_free(wsi)]. *)
Definition lws_free_wsi (wsi : wsi_ptr) : M unit :=
  emit (Ev_free_wsi wsi);;
  let* s := get_state in
  put_wsis (delete wsi (wsis s)).

(** Modelled from the spec: lws_vhost_bind_wsi is not in adopt.c; it makes
    the object discoverable via the vhost's bookkeeping.  The connection
    object is given its vhost. *)
Definition lws_vhost_bind_wsi (vh : lws_vhost) (wsi : wsi_ptr) : M unit :=
  emit (Ev_vhost_bind_wsi wsi);;
  store wsi (set_vhost (Some vh)).

(** Modelled from the spec: lws_vhost_unbind_wsi is not in adopt.c; it
    unbinds the connection object from its vhost. *)
Definition lws_vhost_unbind_wsi (wsi : wsi_ptr) : M unit :=
  emit (Ev_vhost_unbind_wsi wsi);;
  store wsi (set_vhost None).

(** Modelled from the spec: lws_get_or_create_peer is not in adopt.c; it
    looks up the peer record of the socket's remote address, or creates it
    on the first sighting of the address. *)
Definition lws_get_or_create_peer (vh : lws_vhost) (sockfd : Z)
  : M (option nat) :=
  match peer_of_sockfd E sockfd with
  | None => ret None
  | Some pe =>
    let* s := get_state in
    match peers s !! pe with
    | Some _ => ret (Some pe)
    | None =>
      put_peers (<[pe := {| count_wsi := 0 |}]> (peers s));;
      ret (Some pe)
    end
  end.

(** Modelled from the spec: lws_peer_add_wsi is not in adopt.c; the slot
    gets a reference to the peer record and the record's counter is
    incremented. *)
Definition lws_peer_add_wsi (pe : nat) (wsi : wsi_ptr) : M unit :=
  emit (Ev_peer_add_wsi pe wsi);;
  let* s := get_state in
  match peers s !! pe with
  | None => undefined
  | Some r =>
    put_peers (<[pe := {| count_wsi := count_wsi r + 1 |}]> (peers s));;
    store wsi (set_peer (Some pe))
  end.

(** [vhost->protocols[prot].callback(wsi, reason, user, NULL, 0)]. *)
Definition call_protocol_callback (vh : lws_vhost) (prot : nat)
    (wsi : wsi_ptr) (reason : Z) (user : option nat) : M Z :=
  match protocols vh !! prot with
  | None => undefined
  | Some _ =>
    emit (Ev_callback prot wsi reason user);;
    ret (protocol_callback E vh prot wsi reason user)
  end.

(** Modelled from the spec: lws_vhost_name_to_protocol is not in adopt.c; it
    resolves the name against the vhost's protocol table. *)
Definition lws_vhost_name_to_protocol (vh : lws_vhost) (name : string)
  : option nat :=
  fst <$> list_find (fun p => prot_name p = name) (protocols vh).

(** Modelled from the spec: lws_ensure_user_space is not in adopt.c; it
    allocates the user memory the slot's protocol declares, and answers
    nonzero when the allocation fails. *)
Definition lws_ensure_user_space (wsi : wsi_ptr) : M Z :=
  let* x := load wsi in
  match vhost x, protocol x with
  | Some vh, Some i =>
    match protocols vh !! i with
    | None => undefined
    | Some pr =>
      if negb (per_session_data_size pr =? 0) &&
         negb (bool_decide (is_Some (user_space x)))
      then
        match user_space_alloc E wsi (per_session_data_size pr) with
        | Some mem => store wsi (set_user_space (Some mem));; ret 0
        | None => ret 1
        end
      else ret 0
    end
  | _, _ => undefined
  end.

(** [lws_role_call_adoption_bind(wsi, type, prot_name)]. *)
Definition role_call_adoption_bind (wsi : wsi_ptr) (type : Z)
    (prot_name : option string) : M Z :=
  emit (Ev_role_call_adoption_bind wsi type);;
  let* x := load wsi in
  let rb := lws_role_call_adoption_bind E x type prot_name in
  store wsi (set_wsistate (rb_wsistate rb));;
  store wsi (set_role_ops (rb_role_ops rb));;
  ret (rb_ret rb).

Definition call_plat_set_nonblocking (fd : Z) : M Z :=
  emit (Ev_plat_set_nonblocking fd);;
  ret (lws_plat_set_nonblocking E fd).

Definition call_insert_wsi_socket_into_fds (wsi : wsi_ptr) : M Z :=
  emit (Ev_insert_wsi_socket_into_fds wsi);;
  let* s := get_state in
  let r := insert_wsi_socket_into_fds E s wsi in
  put_state (snd r);;
  ret (fst r).

Definition call_server_socket_service_ssl (wsi : wsi_ptr) (fd : Z) : M Z :=
  emit (Ev_server_socket_service_ssl wsi fd);;
  let* s := get_state in
  let r := lws_server_socket_service_ssl E s wsi fd in
  put_state (snd r);;
  ret (fst r).

Definition call_close_free_wsi (wsi : wsi_ptr) : M unit :=
  emit (Ev_close_free_wsi wsi);;
  let* s := get_state in
  put_state (lws_close_free_wsi E s wsi).

Definition lws_cancel_service_pt (wsi : wsi_ptr) : M unit :=
  emit (Ev_cancel_service_pt wsi).

(** *** lws_create_new_server_wsi *)

Definition lws_create_new_server_wsi (vhost : lws_vhost) (fixed_tsi : Z)
  : M (option wsi_ptr) :=
  let n := fixed_tsi in
  let* n :=
    (if n <? 0
     then let* context := get_context in
          match lws_get_idlest_tsi context with
          | Some hit => ret hit
          | None => undefined
          end
     else ret n) in
  if n <? 0 then ret None
  else
    let* new_wsi := lws_zalloc_wsi in
    match new_wsi with
    | None => ret None
    | Some new_wsi =>
      store new_wsi (fun x => set_wsistate (Z.lor (wsistate x) (LWSIFR_SERVER H)) x);;
      store new_wsi (set_tsi n);;
      lws_vhost_bind_wsi vhost new_wsi;;
      store new_wsi (set_wsi_context true);;
      store new_wsi (set_pending_timeout (NO_PENDING_TIMEOUT H));;
      store new_wsi (set_rxflow_change_to (LWS_RXFLOW_ALLOW H));;
      (* initialize the instance struct *)
      store new_wsi (fun x =>
        set_wsistate (lwsi_set_state H (wsistate x) (LRS_UNCONNECTED H)) x);;
      store new_wsi (set_hdr_parsing_completed 0);;
      when (LWS_WITH_TLS H)
        (store new_wsi (set_tls_use_ssl (LWS_SSL_ENABLED H vhost)));;
      store new_wsi (set_protocol (Some 0%nat));;
      store new_wsi (set_user_space None);;
      store new_wsi (set_desc (LWS_SOCK_INVALID H));;
      store new_wsi (set_position_in_fds_table (LWS_NO_FDS_POS H));;
      (let* context := get_context in
       put_context
         (set_count_wsi_allocated (count_wsi_allocated context + 1) context));;
      (* outermost create notification for wsi *)
      call_protocol_callback vhost 0 new_wsi (LWS_CALLBACK_WSI_CREATE H) None;;
      ret (Some new_wsi)
    end.

(** *** lws_adopt_descriptor_vhost *)

(** The ways out of [lws_adopt_descriptor_vhost].  Only [Adopted] returns
    the connection object, the other four return [NULL]. *)
Inductive adopt_exit :=
| Adopted (new_wsi : wsi_ptr)
| Peer_limit
| No_wsi
| At_fail (new_wsi : wsi_ptr)
| At_bail (new_wsi : wsi_ptr).

Definition returned_wsi (e : adopt_exit) : option wsi_ptr :=
  match e with
  | Adopted new_wsi => Some new_wsi
  | _ => None
  end.

(** The code after the label [bail]. *)
Definition adopt_bail (fd : Z) (parent : option wsi_ptr) (new_wsi : wsi_ptr)
  : M adopt_exit :=
  (match parent with
   | Some pa =>
     let* nw := load new_wsi in
     store pa (set_child_list (sibling_list nw))
   | None => ret tt
   end);;
  (let* nw := load new_wsi in
   match user_space nw with
   | Some mem => emit (Ev_free_user_space mem)
   | None => ret tt
   end);;
  (let* context := get_context in
   put_context
     (set_count_wsi_allocated (count_wsi_allocated context - 1) context));;
  lws_vhost_unbind_wsi new_wsi;;
  lws_free_wsi new_wsi;;
  compatible_close fd;;
  ret (At_bail new_wsi).

(** The code after the label [fail]. *)
Definition adopt_fail (type : Z) (new_wsi : wsi_ptr) : M adopt_exit :=
  when (has_flag type (LWS_ADOPT_SOCKET H)) (call_close_free_wsi new_wsi);;
  ret (At_fail new_wsi).

(** The peer check at the head of the function: [None] when the adoption
    is refused, else the value of [peer] to go on with. *)
Definition adopt_peer_check (vh : lws_vhost) (type : Z) (fd : Z)
  : M (option (option nat)) :=
  if LWS_WITH_PEER_LIMITS H then
    if has_flag type (LWS_ADOPT_SOCKET H) then
      let* peer := lws_get_or_create_peer vh fd in
      let* context := get_context in
      let* s := get_state in
      match peer with
      | None => ret (Some None)
      | Some pe =>
        match peers s !! pe with
        | None => undefined
        | Some r =>
          if negb (ip_limit_wsi context =? 0) &&
             (ip_limit_wsi context <=? count_wsi r)
          then
            lws_stats_bump 0 LWSSTATS_C_PEER_LIMIT_WSI_DENIED;;
            ret None
          else ret (Some (Some pe))
        end
      end
    else ret (Some None)
  else ret (Some None).

(** From the accept hook of the event loop to the end of the function. *)
Definition adopt_finish (type : Z) (fd : Z) (vh_prot_name : option string)
    (pt_tsi : Z) (new_wsi : wsi_ptr) : M adopt_exit :=
  store new_wsi (fun x => set_wsistate (Z.lor (wsistate x) (LWSIFR_SERVER H)) x);;
  let n := LWS_CALLBACK_SERVER_NEW_CLIENT_INSTANTIATED H in
  let* nw := load new_wsi in
  match role_ops nw with
  | None => undefined
  | Some ops =>
    let cb := if lwsi_role_server H (wsistate nw)
              then snd (adoption_cb ops) else fst (adoption_cb ops) in
    let n := if negb (cb =? 0) then cb else n in
    let* refused :=
      (if LWS_AMAZON_RTOS H then ret false
       else match event_loop_accept E with
            | None => ret false
            | Some accept =>
              emit (Ev_event_loop_accept new_wsi);;
              let* nw := load new_wsi in
              ret (negb (accept nw =? 0))
            end) in
    if refused then adopt_fail type new_wsi
    else
      when (1 <? LWS_MAX_SMP H)
        (store new_wsi (set_undergoing_init_from_other_pt 1);;
         emit (Ev_undergoing_init_from_other_pt new_wsi 1));;
      let* failed :=
        (if negb (has_flag type (LWS_ADOPT_ALLOW_SSL H)) then
           emit (Ev_pt_lock pt_tsi);;
           let* r := call_insert_wsi_socket_into_fds new_wsi in
           emit (Ev_pt_unlock pt_tsi);;
           ret (negb (r =? 0))
         else if LWS_WITHOUT_SERVER H then ret false
         else
           let* r := call_server_socket_service_ssl new_wsi fd in
           ret (negb (r =? 0))) in
      if failed then adopt_fail type new_wsi
      else
        let* nw := load new_wsi in
        match vhost nw, protocol nw with
        | Some v, Some prot =>
          let* r := call_protocol_callback v prot new_wsi n (user_space nw) in
          if negb (r =? 0) then adopt_fail type new_wsi
          else
            (* role may need to do something after all adoption completed *)
            role_call_adoption_bind new_wsi
              (Z.lor type (_LWS_ADOPT_FINISH H)) vh_prot_name;;
            when (1 <? LWS_MAX_SMP H)
              (store new_wsi (set_undergoing_init_from_other_pt 0);;
               emit (Ev_undergoing_init_from_other_pt new_wsi 0));;
            lws_cancel_service_pt new_wsi;;
            ret (Adopted new_wsi)
        | _, _ => undefined
        end
  end.

(** From the non-blocking enforcement to the role binding; then
    [adopt_finish]. *)
Definition adopt_prepare (type : Z) (fd : Z) (vh_prot_name : option string)
    (parent : option wsi_ptr) (pt_tsi : Z) (new_wsi : wsi_ptr)
  : M adopt_exit :=
  (* enforce that every fd is nonblocking *)
  let* blocking :=
    (if has_flag type (LWS_ADOPT_SOCKET H) then
       let* r := call_plat_set_nonblocking fd in ret (negb (r =? 0))
     else if WIN32 H then ret false
     else let* r := call_plat_set_nonblocking fd in ret (negb (r =? 0))) in
  if blocking then adopt_bail fd parent new_wsi
  else
    store new_wsi (set_desc fd);;
    let* unusable :=
      (match vh_prot_name with
       | None => ret false
       | Some name =>
         let* nw := load new_wsi in
         match vhost nw with
         | None => undefined
         | Some v =>
           store new_wsi (set_protocol (lws_vhost_name_to_protocol v name));;
           let* nw := load new_wsi in
           match protocol nw with
           | None => ret true
           | Some _ =>
             let* r := lws_ensure_user_space new_wsi in
             ret (negb (r =? 0))
           end
         end
       end) in
    if unusable then adopt_bail fd parent new_wsi
    else
      let* nw := load new_wsi in
      match vhost nw with
      | None => undefined
      | Some v =>
        let type :=
          if negb (LWS_SSL_ENABLED H v) ||
             negb (has_flag type (LWS_ADOPT_SOCKET H))
          then Z.land type (Z.lnot (LWS_ADOPT_ALLOW_SSL H))
          else type in
        let* r := role_call_adoption_bind new_wsi type vh_prot_name in
        if negb (r =? 0) then adopt_bail fd parent new_wsi
        else adopt_finish type fd vh_prot_name pt_tsi new_wsi
      end.

Definition lws_adopt_descriptor_vhost_exit (vh : lws_vhost) (type : Z)
    (fd : Z) (vh_prot_name : option string) (parent : option wsi_ptr)
  : M adopt_exit :=
  let* checked := adopt_peer_check vh type fd in
  match checked with
  | None => ret Peer_limit
  | Some peer =>
    let* n :=
      (match parent with
       | Some pa => let* px := load pa in ret (tsi px)
       | None => ret (-1)
       end) in
    let* new_wsi := lws_create_new_server_wsi vh n in
    match new_wsi with
    | None =>
      when (has_flag type (LWS_ADOPT_SOCKET H)) (compatible_close fd);;
      ret No_wsi
    | Some new_wsi =>
      when (LWS_WITH_PEER_LIMITS H)
        (match peer with
         | Some pe => lws_peer_add_wsi pe new_wsi
         | None => ret tt
         end);;
      let* nw := load new_wsi in
      let pt_tsi := tsi nw in
      lws_stats_bump pt_tsi LWSSTATS_C_CONNECTIONS;;
      (match parent with
       | Some pa =>
         store new_wsi (set_parent (Some pa));;
         (let* px := load pa in
          store new_wsi (set_sibling_list (child_list px)));;
         store pa (set_child_list (Some new_wsi))
       | None => ret tt
       end);;
      adopt_prepare type fd vh_prot_name parent pt_tsi new_wsi
    end
  end.

Definition lws_adopt_descriptor_vhost (vh : lws_vhost) (type : Z) (fd : Z)
    (vh_prot_name : option string) (parent : option wsi_ptr)
  : M (option wsi_ptr) :=
  let* e := lws_adopt_descriptor_vhost_exit vh type fd vh_prot_name parent in
  ret (returned_wsi e).

Definition lws_adopt_socket_vhost (vh : lws_vhost) (accept_fd : Z)
  : M (option wsi_ptr) :=
  lws_adopt_descriptor_vhost vh
    (Z.lor (Z.lor (LWS_ADOPT_SOCKET H) (LWS_ADOPT_HTTP H))
           (LWS_ADOPT_ALLOW_SSL H))
    accept_fd None None.

Definition lws_adopt_socket (accept_fd : Z) : M (option wsi_ptr) :=
  let* s := get_state in
  match vhost_list s with
  | vh :: _ => lws_adopt_socket_vhost vh accept_fd
  | [] => undefined
  end.

End adopt.

Section readbuf_udp.
Variable H : lws_header.
Variable E : collaborators.

(** *** adopt_socket_readbuf *)

(** Modelled from the spec: lws_buflist_append_segment is not in adopt.c;
    it appends the byte range as an owned segment to the slot's pending
    list.  A negative return value reports that nothing was appended. *)
Definition lws_buflist_append_segment (wsi : wsi_ptr) (buf : list Z)
    (len : Z) : M Z :=
  emit (Ev_buflist_append_segment wsi len);;
  let* s := get_state in
  let n := buflist_append_ret E s wsi len in
  if n <? 0 then ret n
  else
    store wsi (fun x => set_buflist (buflist x ++ [take (Z.to_nat len) buf]) x);;
    ret n.

(** [lws_dll2_add_head(&wsi->dll_buflist, &pt->dll_buflist_owner)]. *)
Definition add_to_dll_buflist_owner (pt_tsi : Z) (wsi : wsi_ptr) : M unit :=
  let* context := get_context in
  if pt_tsi <? 0 then undefined
  else
    match pt context !! Z.to_nat pt_tsi with
    | None => undefined
    | Some p =>
      put_context
        (set_pt (<[Z.to_nat pt_tsi :=
                     set_dll_buflist_owner (wsi :: dll_buflist_owner p) p]>
                   (pt context)) context)
    end.

(** Modelled from the spec: lws_header_table_attach is not in adopt.c; it
    answers 0 when a header-parsing context is attached to the slot. *)
Definition call_header_table_attach (wsi : wsi_ptr) : M Z :=
  emit (Ev_header_table_attach wsi);;
  let* s := get_state in
  let r := lws_header_table_attach E s wsi in
  when (r =? 0) (store wsi (set_http_ah true));;
  ret r.

(** [pfd = &pt->fds[pos]; pfd->revents |= LWS_POLLIN], returning [*pfd]. *)
Definition raise_pollin (pt_tsi pos : Z) : M lws_pollfd :=
  let* context := get_context in
  if (pt_tsi <? 0) || (pos <? 0) then undefined
  else
    match pt context !! Z.to_nat pt_tsi with
    | None => undefined
    | Some p =>
      match fds p !! Z.to_nat pos with
      | None => undefined
      | Some pfd =>
        let pfd' := set_pfd_revents (Z.lor (pfd_revents pfd) (LWS_POLLIN H)) pfd in
        put_context
          (set_pt (<[Z.to_nat pt_tsi := set_fds (<[Z.to_nat pos := pfd']> (fds p)) p]>
                     (pt context)) context);;
        ret pfd'
      end
    end.

Definition call_service_fd_tsi (pfd : lws_pollfd) (tsi : Z) : M Z :=
  emit (Ev_service_fd_tsi tsi pfd);;
  let* s := get_state in
  let r := lws_service_fd_tsi E s pfd tsi in
  put_state (snd r);;
  ret (fst r).

Definition adopt_socket_readbuf (wsi : option wsi_ptr)
    (readbuf : option (list Z)) (len : Z) : M (option wsi_ptr) :=
  match wsi with
  | None => ret None
  | Some wsi =>
    match readbuf with
    | None => ret (Some wsi)
    | Some buf =>
      if len =? 0 then ret (Some wsi)
      else
        let* x := load wsi in
        if position_in_fds_table x =? LWS_NO_FDS_POS H then ret (Some wsi)
        else
          let pt_tsi := tsi x in
          let* n := lws_buflist_append_segment wsi buf len in
          if n <? 0 then
            (* bail *)
            call_close_free_wsi E wsi;;
            ret None
          else
            when (negb (n =? 0)) (add_to_dll_buflist_owner pt_tsi wsi);;
            let* x := load wsi in
            let* ready :=
              (if http_ah x then ret true
               else let* r := call_header_table_attach wsi in ret (r =? 0)) in
            if ready then
              let* x := load wsi in
              let* pfd := raise_pollin pt_tsi (position_in_fds_table x) in
              let* r := call_service_fd_tsi pfd (tsi x) in
              if negb (r =? 0) then
                (* service closed us *)
                ret None
              else ret (Some wsi)
            else ret (Some wsi)
    end
  end.

Definition lws_adopt_socket_readbuf (accept_fd : Z)
    (readbuf : option (list Z)) (len : Z) : M (option wsi_ptr) :=
  let* wsi := lws_adopt_socket H E accept_fd in
  adopt_socket_readbuf wsi readbuf len.

Definition lws_adopt_socket_vhost_readbuf (vhost : lws_vhost)
    (accept_fd : Z) (readbuf : option (list Z)) (len : Z)
  : M (option wsi_ptr) :=
  let* wsi := lws_adopt_socket_vhost H E vhost accept_fd in
  adopt_socket_readbuf wsi readbuf len.

(** *** lws_create_adopt_udp *)

(** The loop over the addresses [getaddrinfo] returned: the socket and the
    address it was created for, or [None] when the list is exhausted. *)
Fixpoint udp_socket_loop (rp : list addrinfo) : M (option (Z * addrinfo)) :=
  match rp with
  | [] => ret None
  | ai :: rest =>
    emit (Ev_socket ai);;
    let sockfd := socket E ai in
    if negb (sockfd =? LWS_SOCK_INVALID H) then ret (Some (sockfd, ai))
    else udp_socket_loop rest
  end.

Definition lws_create_adopt_udp (vhost : lws_vhost) (port : Z) (flags : Z)
    (protocol_name : option string) (parent_wsi : option wsi_ptr)
  : M (option wsi_ptr) :=
  if LWS_PLAT_OPTEE H then ret None
  else
    emit (Ev_getaddrinfo (to_uint port));;
    let (n, r) := getaddrinfo E (to_uint port) in
    if negb (n =? 0) then
      (* bail *)
      ret None
    else
      let* found := udp_socket_loop r in
      match found with
      | None =>
        (* bail1 *)
        emit Ev_freeaddrinfo;;
        ret None
      | Some (sockfd, rp) =>
        let* unbound :=
          (if has_flag flags (LWS_CAUDP_BIND H) then
             emit (Ev_bind sockfd);;
             ret (bind E sockfd rp =? -1)
           else ret false) in
        let* wsi :=
          (if unbound then ret None
           else lws_adopt_descriptor_vhost H E vhost
                  (LWS_ADOPT_RAW_SOCKET_UDP H) sockfd protocol_name
                  parent_wsi) in
        (* bail2 *)
        when (negb (bool_decide (is_Some wsi))) (compatible_close sockfd);;
        (* bail1 *)
        emit Ev_freeaddrinfo;;
        ret wsi
      end.

End readbuf_udp.

(** ** A sample configuration

    One set of values for the constants, a two-thread context with one
    vhost, and collaborators whose answers are chosen per example. *)

Definition sample_header : lws_header := {|
  LWS_ADOPT_HTTP := 1;
  LWS_ADOPT_SOCKET := 2;
  LWS_ADOPT_ALLOW_SSL := 4;
  LWS_ADOPT_RAW_SOCKET_UDP := 18;
  _LWS_ADOPT_FINISH := 16777216;
  LWS_CAUDP_BIND := 1;
  LWSIFR_SERVER := 536870912;
  LRS_UNCONNECTED := 0;
  lwsi_set_state := fun ws s => Z.lor (Z.land ws (Z.lnot 65535)) s;
  lwsi_state := fun ws => Z.land ws 65535;
  lwsi_role_server := fun ws => has_flag ws 536870912;
  NO_PENDING_TIMEOUT := 0;
  LWS_RXFLOW_ALLOW := 1;
  LWS_SOCK_INVALID := -1;
  LWS_NO_FDS_POS := -1;
  LWS_POLLIN := 1;
  LWS_CALLBACK_WSI_CREATE := 29;
  LWS_CALLBACK_SERVER_NEW_CLIENT_INSTANTIATED := 19;
  LWS_SSL_ENABLED := vh_tls_use_ssl;
  LWS_MAX_SMP := 32;
  LWS_WITH_PEER_LIMITS := true;
  LWS_WITH_TLS := true;
  WIN32 := false;
  LWS_AMAZON_RTOS := false;
  LWS_WITHOUT_SERVER := false;
  LWS_PLAT_OPTEE := false;
|}.

Definition sample_vhost : lws_vhost := {|
  vh_name := "default";
  protocols := [ {| prot_name := "http"; per_session_data_size := 0 |};
                 {| prot_name := "raw"; per_session_data_size := 16 |} ];
  vh_tls_use_ssl := false;
|}.

Definition sample_role : lws_role_ops := {|
  role_name := "raw-skt";
  adoption_cb := (0, 59);
|}.

(** A teardown for the examples: the object is freed and no longer
    counted. *)
Definition sample_close_free (s : lws_state) (wsi : wsi_ptr) : lws_state := {|
  the_context :=
    set_count_wsi_allocated (count_wsi_allocated (the_context s) - 1)
      (the_context s);
  wsis := delete wsi (wsis s);
  peers := peers s;
  vhost_list := vhost_list s;
|}.

(** Collaborators that answer [nonblock] to the non-blocking request,
    [role] to the role binder, [ins] to the poll-table insertion and [cb]
    to every protocol callback except the create notification; every
    socket has the remote address 1 and every allocation succeeds. *)
Definition sample_collaborators (nonblock role ins cb : Z) : collaborators := {|
  lws_zalloc_ok := fun _ => true;
  peer_of_sockfd := fun _ => Some 1%nat;
  protocol_callback := fun _ _ _ reason _ => if reason =? 29 then 0 else cb;
  lws_plat_set_nonblocking := fun _ => nonblock;
  user_space_alloc := fun wsi _ => Some (100 + wsi)%nat;
  lws_role_call_adoption_bind := fun x _ _ =>
    {| rb_ret := role; rb_wsistate := wsistate x;
       rb_role_ops := Some sample_role |};
  event_loop_accept := None;
  insert_wsi_socket_into_fds := fun s _ => (ins, s);
  lws_server_socket_service_ssl := fun s _ _ => (0, s);
  lws_close_free_wsi := sample_close_free;
  buflist_append_ret := fun _ _ _ => 1;
  lws_header_table_attach := fun _ _ => 1;
  lws_service_fd_tsi := fun s _ _ => (0, s);
  getaddrinfo := fun _ => (0, [ {| ai_family := 2; ai_socktype := 2; ai_protocol := 17 |} ]);
  socket := fun _ => 9;
  bind := fun _ _ => 0;
|}.

Definition sample_context : lws_context := {|
  count_threads := 2;
  fd_limit_per_thread := 8;
  pt := [ {| fds_count := 3; fds := []; dll_buflist_owner := [] |};
          {| fds_count := 1; fds := []; dll_buflist_owner := [] |} ];
  count_wsi_allocated := 1;
  ip_limit_wsi := 2;
|}.

(** A listening connection object at address 0, the parent in the
    examples. *)
Definition sample_parent : lws :=
  set_tsi 1 (set_vhost (Some sample_vhost) (set_protocol (Some 0%nat) lws_zeroed)).

Definition sample_world : world := {|
  st := {| the_context := sample_context;
           wsis := {[ 0%nat := sample_parent ]};
           peers := ∅;
           vhost_list := [sample_vhost] |};
  trace := [];
|}.




(** Adoption of socket 7 when the protocol callback rejects it. *)
Definition sample_socket_rejected : outcome adopt_exit :=
  lws_adopt_descriptor_vhost_exit sample_header
    (sample_collaborators 0 0 0 1) sample_vhost 2 7 None None sample_world.

(** A successful adoption of socket 7 as a child of the object at 0. *)
Definition sample_adopted : outcome adopt_exit :=
  lws_adopt_descriptor_vhost_exit sample_header
    (sample_collaborators 0 0 0 0) sample_vhost 2 7 None (Some 0%nat)
    sample_world.


(** The sample world when the remote address 1 already has two
    connections, the ceiling of the sample context. *)
Definition sample_world_peer_full : world := {|
  st := {| the_context := sample_context;
           wsis := {[ 0%nat := sample_parent ]};
           peers := {[ 1%nat := {| count_wsi := 2 |} ]};
           vhost_list := [sample_vhost] |};
  trace := [];
|}.

(** Allocation of a slot in the sample world with no thread requested. *)
Definition sample_created : outcome (option wsi_ptr) :=
  lws_create_new_server_wsi sample_header (sample_collaborators 0 0 0 0)
    sample_vhost (-1) sample_world.

(** The sample world after an adoption whose slot, at address 1, is in the
    poll table of thread 1 at position 0. *)
Definition sample_world_polled : world := {|
  st := {| the_context :=
             set_pt [ {| fds_count := 3; fds := []; dll_buflist_owner := [] |};
                      {| fds_count := 2;
                         fds := [ {| pfd_fd := 7; pfd_events := 1;
                                     pfd_revents := 0 |} ];
                         dll_buflist_owner := [] |} ]
               sample_context;
           wsis := {[ 1%nat :=
                        set_position_in_fds_table 0
                          (set_desc 7 sample_parent) ]};
           peers := ∅;
           vhost_list := [sample_vhost] |};
  trace := [];
|}.


(** Creation of a UDP child on port 5000 without the bind flag. *)
Definition sample_udp_child : outcome (option wsi_ptr) :=
  lws_create_adopt_udp sample_header (sample_collaborators 0 0 0 0)
    sample_vhost 5000 0 None (Some 0%nat) sample_world.

(** Creation of a UDP child when the socket cannot be made non-blocking. *)
Definition sample_udp_child_bailed : outcome (option wsi_ptr) :=
  lws_create_adopt_udp sample_header (sample_collaborators 1 0 0 0)
    sample_vhost 5000 0 None (Some 0%nat) sample_world.

(** The same bytes for a slot that already has a header-parsing
    context. *)
Definition sample_readbuf_serviced : outcome (option wsi_ptr) :=
  adopt_socket_readbuf sample_header (sample_collaborators 0 0 0 0)
    (Some 1%nat) (Some [71; 69; 84; 32]) 4
    {| st := {| the_context := the_context (st sample_world_polled);
                wsis := set_http_ah true <$> wsis (st sample_world_polled);
                peers := ∅;
                vhost_list := [sample_vhost] |};
       trace := [] |}.

(** The sample world when both threads are at capacity (seven fds of a
    limit of eight). *)
Definition sample_world_full : world := {|
  st := {| the_context :=
             set_pt [ {| fds_count := 7; fds := []; dll_buflist_owner := [] |};
                      {| fds_count := 7; fds := []; dll_buflist_owner := [] |} ]
               sample_context;
           wsis := {[ 0%nat := sample_parent ]};
           peers := ∅;
           vhost_list := [sample_vhost] |};
  trace := [];
|}.

(** A vhost like the sample vhost, with TLS enabled. *)
Definition sample_tls_vhost : lws_vhost := {|
  vh_name := "tls";
  protocols := protocols sample_vhost;
  vh_tls_use_ssl := true;
|}.

(** Adoption of socket 7 on the TLS vhost the way [lws_adopt_socket_vhost]
    asks for it: a socket, HTTP, TLS allowed. *)
Definition sample_tls_adopted : outcome adopt_exit :=
  lws_adopt_descriptor_vhost_exit sample_header
    (sample_collaborators 0 0 0 0) sample_tls_vhost 7 7 None None
    sample_world.

(** Collaborators like [E], except that [lws_buflist_append_segment]
    answers [n]. *)
Definition with_buflist_append_ret (n : Z) (E : collaborators)
  : collaborators := {|
  lws_zalloc_ok := lws_zalloc_ok E;
  peer_of_sockfd := peer_of_sockfd E;
  protocol_callback := protocol_callback E;
  lws_plat_set_nonblocking := lws_plat_set_nonblocking E;
  user_space_alloc := user_space_alloc E;
  lws_role_call_adoption_bind := lws_role_call_adoption_bind E;
  event_loop_accept := event_loop_accept E;
  insert_wsi_socket_into_fds := insert_wsi_socket_into_fds E;
  lws_server_socket_service_ssl := lws_server_socket_service_ssl E;
  lws_close_free_wsi := lws_close_free_wsi E;
  buflist_append_ret := fun _ _ _ => n;
  lws_header_table_attach := lws_header_table_attach E;
  lws_service_fd_tsi := lws_service_fd_tsi E;
  getaddrinfo := getaddrinfo E;
  socket := socket E;
  bind := bind E;
|}.

(** Four prebuffered bytes for the slot at 1 when the append fails. *)
Definition sample_readbuf_oom : outcome (option wsi_ptr) :=
  adopt_socket_readbuf sample_header
    (with_buflist_append_ret (-1) (sample_collaborators 0 0 0 0))
    (Some 1%nat) (Some [71; 69; 84; 32]) 4 sample_world_polled.

(** Collaborators like [E], except for the answers of [getaddrinfo],
    [socket] and [bind]. *)
Definition with_udp_answers (g : Z -> Z * list addrinfo)
    (sock : addrinfo -> Z) (bnd : Z -> addrinfo -> Z) (E : collaborators)
  : collaborators := {|
  lws_zalloc_ok := lws_zalloc_ok E;
  peer_of_sockfd := peer_of_sockfd E;
  protocol_callback := protocol_callback E;
  lws_plat_set_nonblocking := lws_plat_set_nonblocking E;
  user_space_alloc := user_space_alloc E;
  lws_role_call_adoption_bind := lws_role_call_adoption_bind E;
  event_loop_accept := event_loop_accept E;
  insert_wsi_socket_into_fds := insert_wsi_socket_into_fds E;
  lws_server_socket_service_ssl := lws_server_socket_service_ssl E;
  lws_close_free_wsi := lws_close_free_wsi E;
  buflist_append_ret := buflist_append_ret E;
  lws_header_table_attach := lws_header_table_attach E;
  lws_service_fd_tsi := lws_service_fd_tsi E;
  getaddrinfo := g;
  socket := sock;
  bind := bnd;
|}.

(** An IPv6 and an IPv4 address for UDP. *)
Definition sample_ai6 : addrinfo :=
  {| ai_family := 10; ai_socktype := 2; ai_protocol := 17 |}.

Definition sample_ai4 : addrinfo :=
  {| ai_family := 2; ai_socktype := 2; ai_protocol := 17 |}.

(** Collaborators for which [getaddrinfo] answers [gai] with the two
    sample addresses, no IPv6 socket can be created, an IPv4 socket is the
    descriptor 9, and [bind] answers [bnd]. *)
Definition sample_udp_collaborators (gai bnd : Z) : collaborators :=
  with_udp_answers
    (fun _ => (gai, [sample_ai6; sample_ai4]))
    (fun ai => if ai_family ai =? 10 then -1 else 9)
    (fun _ _ => bnd)
    (sample_collaborators 0 0 0 0).

(** The sample world with both threads at capacity and no peer ceiling. *)
Definition sample_world_full_unlimited : world := {|
  st := {| the_context :=
             {| count_threads := 2;
                fd_limit_per_thread := 8;
                pt := pt (the_context (st sample_world_full));
                count_wsi_allocated := 1;
                ip_limit_wsi := 0 |};
           wsis := {[ 0%nat := sample_parent ]};
           peers := ∅;
           vhost_list := [sample_vhost] |};
  trace := [];
|}.

(** ** Reading the trace and the heap *)

(** How many events of the trace satisfy [P]. *)
Fixpoint count_events (P : event -> bool) (tr : list event) : nat :=
  match tr with
  | [] => O
  | e :: tr' => ((if P e then 1 else 0) + count_events P tr')%nat
  end.

Definition is_compatible_close (fd : Z) (e : event) : bool :=
  match e with
  | Ev_compatible_close fd' => fd' =? fd
  | _ => false
  end.

Definition is_close_free_wsi (wsi : wsi_ptr) (e : event) : bool :=
  match e with
  | Ev_close_free_wsi wsi' => Nat.eqb wsi' wsi
  | _ => false
  end.

Definition is_bind (e : event) : bool :=
  match e with
  | Ev_bind _ => true
  | _ => false
  end.

Definition is_service_fd_tsi (e : event) : bool :=
  match e with
  | Ev_service_fd_tsi _ _ => true
  | _ => false
  end.

(** A store to [wsi->undergoing_init_from_other_pt]. *)
Definition is_init_flag_store (wsi : wsi_ptr) (e : event) : bool :=
  match e with
  | Ev_undergoing_init_from_other_pt wsi' _ => Nat.eqb wsi' wsi
  | _ => false
  end.

(** The events that make the slot visible to its service thread: the
    insertion into the poll table and the hand-off to the TLS service. *)
Definition is_registration (wsi : wsi_ptr) (e : event) : bool :=
  match e with
  | Ev_insert_wsi_socket_into_fds wsi' => Nat.eqb wsi' wsi
  | Ev_server_socket_service_ssl wsi' _ => Nat.eqb wsi' wsi
  | _ => false
  end.

Definition is_cancel_service_pt (wsi : wsi_ptr) (e : event) : bool :=
  match e with
  | Ev_cancel_service_pt wsi' => Nat.eqb wsi' wsi
  | _ => false
  end.

(** The events of a trace (most recent first) that are more recent than
    its most recent event satisfying [P]; the whole trace if there is
    none. *)
Fixpoint events_since (P : event -> bool) (tr : list event) : list event :=
  match tr with
  | [] => []
  | e :: tr' => if P e then [] else e :: events_since P tr'
  end.



(** The events that undo an adoption. *)
Definition is_unwind (e : event) : bool :=
  match e with
  | Ev_compatible_close _ | Ev_close_free_wsi _ | Ev_free_wsi _
  | Ev_vhost_unbind_wsi _ | Ev_free_user_space _ => true
  | _ => false
  end.

(** The events that undo an adoption, publish the slot to its service
    thread or wake that thread, and the stores to the initializing flag. *)
Definition is_milestone (e : event) : bool :=
  match e with
  | Ev_undergoing_init_from_other_pt _ _
  | Ev_insert_wsi_socket_into_fds _ | Ev_server_socket_service_ssl _ _
  | Ev_cancel_service_pt _ => true
  | _ => is_unwind e
  end.

(** ** Specifications of runs *)

(** [emits m R]: a run of [m] with result [a] adds events [evs] to the
    trace (most recent first) such that [R a evs]. *)
Definition emits {A : Type} (m : M A) (R : A -> list event -> Prop) : Prop :=
  forall w a w', m w = Done a w' ->
    exists evs, trace w' = evs ++ trace w /\ R a evs.

(** [quiet P m]: a run of [m] adds no event satisfying [P]. *)
Definition quiet {A : Type} (P : event -> bool) (m : M A) : Prop :=
  emits m (fun _ evs => count_events P evs = O).

(** [R] still holds when events not satisfying [P] happened before. *)
Definition stable {A : Type} (P : event -> bool)
    (R : A -> list event -> Prop) : Prop :=
  forall a evs older, R a evs -> count_events P older = O -> R a (evs ++ older).


(** What [adopt_finish] adds to the trace, by the way out it takes. *)
Definition finish_events (H : lws_header) (type : Z) (new_wsi : wsi_ptr)
    (e : adopt_exit) (fin : list event) : Prop :=
  match e with
  | At_fail q =>
    q = new_wsi /\
    exists rest,
      fin = (if has_flag type (LWS_ADOPT_SOCKET H)
             then [Ev_close_free_wsi new_wsi] else []) ++ rest /\
      count_events is_unwind rest = O
  | Adopted q =>
    q = new_wsi /\
    if 1 <? LWS_MAX_SMP H then
      exists mid old,
        fin = Ev_cancel_service_pt new_wsi ::
              Ev_undergoing_init_from_other_pt new_wsi 0 ::
              Ev_role_call_adoption_bind new_wsi
                (Z.lor type (_LWS_ADOPT_FINISH H)) ::
              mid ++ Ev_undergoing_init_from_other_pt new_wsi 1 :: old /\
        count_events (is_init_flag_store new_wsi) mid = O /\
        count_events is_unwind mid = O /\
        count_events is_milestone old = O
    else
      exists rest,
        fin = Ev_cancel_service_pt new_wsi ::
              Ev_role_call_adoption_bind new_wsi
                (Z.lor type (_LWS_ADOPT_FINISH H)) :: rest /\
        count_events (is_init_flag_store new_wsi) rest = O /\
        count_events is_unwind rest = O
  | _ => False
  end.

(** What [lws_adopt_descriptor_vhost] adds to the trace, by the way out it
    takes; [type] and [fd] are its arguments. *)
Definition adopt_events (H : lws_header) (type fd : Z)
    (e : adopt_exit) (evs : list event) : Prop :=
  match e with
  | Peer_limit => count_events is_milestone evs = O
  | No_wsi =>
    exists older,
      evs = (if has_flag type (LWS_ADOPT_SOCKET H)
             then [Ev_compatible_close fd] else []) ++ older /\
      count_events is_milestone older = O
  | At_bail new_wsi =>
    exists pre older,
      evs = Ev_compatible_close fd :: Ev_free_wsi new_wsi ::
            Ev_vhost_unbind_wsi new_wsi :: pre ++ older /\
      (pre = [] \/ exists mem, pre = [Ev_free_user_space mem]) /\
      count_events is_milestone older = O
  | At_fail new_wsi | Adopted new_wsi =>
    exists ty fin older,
      evs = fin ++ older /\
      (ty = type \/ ty = Z.land type (Z.lnot (LWS_ADOPT_ALLOW_SSL H))) /\
      finish_events H ty new_wsi e fin /\
      count_events is_milestone older = O
  end.

(** ** The thread selector *)

(** The per-thread table as the selector may meet it: the threads in use lie
    inside the array, the capacity is an [unsigned int], and every count of
    installed fds is an [unsigned int] below [UINT_MAX]. *)
Definition threads_ok (context : lws_context) : Prop :=
  (Z.to_nat (count_threads context) <= length (pt context))%nat /\
  0 <= fd_limit_per_thread context < 2 ^ 32 /\
  forall (i : nat) p, (i < Z.to_nat (count_threads context))%nat ->
    pt context !! i = Some p -> 0 <= fds_count p < UINT_MAX.

(** Thread [p] passes the capacity test of the selector. *)
Definition has_room (context : lws_context) (p : lws_context_per_thread)
  : Prop :=
  fds_count p <> fd_limit_per_thread context - 1.

(** What the loop has established once the indices below [n] are done. *)
Definition scan_inv (context : lws_context) (n : nat) (lowest hit : Z)
  : Prop :=
  (hit = -1 /\ lowest = UINT_MAX /\
   forall (j : nat) q, (j < n)%nat -> pt context !! j = Some q ->
     ~ has_room context q) \/
  (exists (i : nat) p, hit = Z.of_nat i /\ (i < n)%nat /\
     pt context !! i = Some p /\ has_room context p /\
     lowest = fds_count p /\
     (forall (j : nat) q, (j < n)%nat -> pt context !! j = Some q ->
        has_room context q -> fds_count p <= fds_count q) /\
     (forall (j : nat) q, (j < i)%nat -> pt context !! j = Some q ->
        has_room context q -> fds_count p < fds_count q)).


(** The world a run ends in; [w0] when the run is undefined. *)
Definition world_after {A : Type} (o : outcome A) (w0 : world) : world :=
  match o with
  | Done _ w => w
  | Undefined => w0
  end.

(** ** Further specifications *)

(** Thread [p] can be selected whatever its count is: read as unsigned
    int, the count is not the capacity minus one and is below the initial
    value of [lowest]. *)
Definition selectable (context : lws_context) (p : lws_context_per_thread)
  : Prop :=
  to_uint (fds_count p) <> to_uint (fd_limit_per_thread context - 1) /\
  to_uint (fds_count p) < UINT_MAX.

(** What the loop of the selector has established once the indices below
    [n] are done, in unsigned arithmetic. *)
Definition selected_so_far (context : lws_context) (n : nat)
    (lowest hit : Z) : Prop :=
  (hit = -1 /\ lowest = UINT_MAX /\
   forall (j : nat) q, (j < n)%nat -> pt context !! j = Some q ->
     ~ selectable context q) \/
  (exists (i : nat) p, hit = Z.of_nat i /\ (i < n)%nat /\
     pt context !! i = Some p /\ selectable context p /\
     lowest = to_uint (fds_count p) /\
     (forall (j : nat) q, (j < n)%nat -> pt context !! j = Some q ->
        selectable context q ->
        to_uint (fds_count p) <= to_uint (fds_count q)) /\
     (forall (j : nat) q, (j < i)%nat -> pt context !! j = Some q ->
        selectable context q ->
        to_uint (fds_count p) < to_uint (fds_count q))).

(** The slot an exit of the adoption is about, if it has one. *)
Definition exit_wsi (e : adopt_exit) : option wsi_ptr :=
  match e with
  | Adopted q | At_fail q | At_bail q => Some q
  | Peer_limit | No_wsi => None
  end.

Definition is_pt_lock (e : event) : bool :=
  match e with
  | Ev_pt_lock _ => true
  | _ => false
  end.

Definition is_pt_unlock (e : event) : bool :=
  match e with
  | Ev_pt_unlock _ => true
  | _ => false
  end.

Definition is_insert_into_fds (e : event) : bool :=
  match e with
  | Ev_insert_wsi_socket_into_fds _ => true
  | _ => false
  end.

Definition is_service_ssl (e : event) : bool :=
  match e with
  | Ev_server_socket_service_ssl _ _ => true
  | _ => false
  end.

Definition is_freeaddrinfo (e : event) : bool :=
  match e with
  | Ev_freeaddrinfo => true
  | _ => false
  end.

(** [ensures m Q]: a run of [m] with result [a] ends in a world [w'] such
    that [Q a w']. *)
Definition ensures {A : Type} (m : M A) (Q : A -> world -> Prop) : Prop :=
  forall w a w', m w = Done a w' -> Q a w'.

(** The events of the poll-table insertion and of the lock around it. *)
Definition is_locking (e : event) : bool :=
  is_pt_lock e || is_pt_unlock e || is_insert_into_fds e.


(** What a run adds to the trace between taking and releasing the lock of
    the service thread, and how it registers the slot. *)
Definition registers (H : lws_header) (ty : Z) (e : adopt_exit)
    (evs : list event) : Prop :=
  count_events is_pt_lock evs = count_events is_insert_into_fds evs /\
  count_events is_pt_unlock evs = count_events is_insert_into_fds evs /\
  (count_events is_insert_into_fds evs + count_events is_service_ssl evs <= 1)%nat /\
  (count_events is_service_ssl evs <> O ->
   has_flag ty (LWS_ADOPT_ALLOW_SSL H) = true /\
   LWS_WITHOUT_SERVER H = false) /\
  (count_events is_insert_into_fds evs <> O ->
   has_flag ty (LWS_ADOPT_ALLOW_SSL H) = false) /\
  (forall q, e = Adopted q ->
     has_flag ty (LWS_ADOPT_ALLOW_SSL H) = false \/
     LWS_WITHOUT_SERVER H = false ->
     (count_events is_insert_into_fds evs +
      count_events is_service_ssl evs = 1)%nat).

(** What a run of the adoption adds to the trace between taking and
    releasing the lock of the service thread, and how it hands the slot
    over; [type] is the argument of the call. *)
Definition adoption_registers (H : lws_header) (type : Z) (e : adopt_exit)
    (evs : list event) : Prop :=
  count_events is_pt_lock evs = count_events is_insert_into_fds evs /\
  count_events is_pt_unlock evs = count_events is_insert_into_fds evs /\
  (count_events is_insert_into_fds evs + count_events is_service_ssl evs <= 1)%nat /\
  (count_events is_service_ssl evs <> O ->
   has_flag type (LWS_ADOPT_ALLOW_SSL H) = true /\
   has_flag type (LWS_ADOPT_SOCKET H) = true /\
   LWS_WITHOUT_SERVER H = false) /\
  (forall q, e = Adopted q ->
     has_flag type (LWS_ADOPT_ALLOW_SSL H) = false \/
     LWS_WITHOUT_SERVER H = false ->
     (count_events is_insert_into_fds evs +
      count_events is_service_ssl evs = 1)%nat).

(** The events [adoption_registers] counts. *)
Definition is_registering (e : event) : bool :=
  is_locking e || is_service_ssl e.


(** How often the adoption closes the descriptor itself, by the way out. *)
Definition closes_on_exit (H : lws_header) (type : Z) (e : adopt_exit) : nat :=
  match e with
  | At_bail _ => 1
  | No_wsi => if has_flag type (LWS_ADOPT_SOCKET H) then 1 else 0
  | _ => 0
  end.

(** * Properties *)

(** ** Reasoning about runs *)

Lemma bind_inv {A B : Type} (m : M A) (k : A -> M B) (w w' : world) (b : B) :
  bind_M m k w = Done b w' ->
  exists a w1, m w = Done a w1 /\ k a w1 = Done b w'.
Proof.
  unfold bind_M. destruct (m w) as [a w1 |]; [eauto | discriminate].
Qed.

Lemma ret_inv {A : Type} (a b : A) (w w' : world) :
  ret a w = Done b w' -> a = b /\ w = w'.
Proof. unfold ret. intros Heq. injection Heq as -> ->. split; reflexivity. Qed.

Lemma count_events_app (P : event -> bool) (l1 l2 : list event) :
  count_events P (l1 ++ l2) = (count_events P l1 + count_events P l2)%nat.
Proof. induction l1 as [| e l1 IH]; simpl; [reflexivity | rewrite IH; lia]. Qed.

Section emitting.
Context {A B : Type}.

Lemma emits_ret (a : A) (R : A -> list event -> Prop) :
  R a [] -> emits (ret a) R.
Proof.
  intros HR w a' w' Hrun. apply ret_inv in Hrun as [<- <-].
  exists []. split; [reflexivity | exact HR].
Qed.

Lemma emits_undefined (R : A -> list event -> Prop) : emits undefined R.
Proof. intros w a w' Hrun. discriminate Hrun. Qed.

Lemma emits_emit (e : event) (R : unit -> list event -> Prop) :
  R tt [e] -> emits (emit e) R.
Proof.
  intros HR w a w' Hrun. unfold emit in Hrun. injection Hrun as <- <-.
  exists [e]. split; [reflexivity | exact HR].
Qed.

Lemma quiet_get_state (P : event -> bool) : quiet P get_state.
Proof.
  intros w a w' Hrun. unfold get_state in Hrun. injection Hrun as _ <-.
  exists []. split; reflexivity.
Qed.

Lemma quiet_put_state (P : event -> bool) (s : lws_state) :
  quiet P (put_state s).
Proof.
  intros w a w' Hrun. unfold put_state in Hrun. injection Hrun as _ <-.
  exists []. split; reflexivity.
Qed.

Lemma quiet_bind (P : event -> bool) (m : M A) (k : A -> M B) :
  quiet P m -> (forall a, quiet P (k a)) -> quiet P (bind_M m k).
Proof.
  intros Hm Hk w b w' Hrun.
  apply bind_inv in Hrun as (a & w1 & Hrun1 & Hrun2).
  apply Hm in Hrun1 as (e1 & Ht1 & Hc1).
  apply Hk in Hrun2 as (e2 & Ht2 & Hc2).
  exists (e2 ++ e1). split.
  - rewrite Ht2, Ht1. apply app_assoc.
  - rewrite count_events_app, Hc1, Hc2. reflexivity.
Qed.

Lemma emits_bind_quiet (P : event -> bool) (m : M A) (k : A -> M B)
    (R : B -> list event -> Prop) :
  stable P R -> quiet P m -> (forall a, emits (k a) R) ->
  emits (bind_M m k) R.
Proof.
  intros HR Hm Hk w b w' Hrun.
  apply bind_inv in Hrun as (a & w1 & Hrun1 & Hrun2).
  apply Hm in Hrun1 as (e1 & Ht1 & Hc1).
  apply Hk in Hrun2 as (e2 & Ht2 & HR2).
  exists (e2 ++ e1). split.
  - rewrite Ht2, Ht1. apply app_assoc.
  - apply HR; assumption.
Qed.

End emitting.

Ltac head_of t :=
  lazymatch t with
  | ?f _ => head_of f
  | _ => t
  end.

(** Prove [quiet P m] by going through the code of [m]. *)
Ltac quiet_step :=
  lazymatch goal with
  | |- quiet _ (ret _) => apply emits_ret; reflexivity
  | |- quiet _ undefined => apply emits_undefined
  | |- quiet _ (bind_M _ _) => apply quiet_bind; [| intros ?]
  | |- quiet _ (emit _) => apply emits_emit; reflexivity
  | |- quiet _ get_state => apply quiet_get_state
  | |- quiet _ (put_state _) => apply quiet_put_state
  | |- quiet _ (match ?c with _ => _ end) => destruct c
  | |- quiet _ ?m => let h := head_of m in unfold h
  end.

Ltac quiet_tac := repeat quiet_step.

(** Go through the code of [m] for [emits m R], where [R] is stable for
    [P]; the computations bound on the way have to be quiet for [P], and
    the goals for the blocks named in [leaf] are left. *)
Ltac emits_step P HR leaf :=
  lazymatch goal with
  | |- emits (ret _) _ => apply emits_ret
  | |- emits undefined _ => apply emits_undefined
  | |- emits (bind_M _ _) _ =>
    apply (emits_bind_quiet P _ _ _ HR); [solve [quiet_tac] | intros ?]
  | |- emits (match ?c with _ => _ end) _ => destruct c
  | |- emits ?m _ => let h := head_of m in leaf h; unfold h
  end.

(** ** Symbolic execution of short pieces of the model *)

Lemma fresh_wsi_unallocated (m : gmap wsi_ptr lws) : m !! fresh (dom m) = None.
Proof. apply not_elem_of_dom. apply is_fresh. Qed.

Lemma lookup_distinct (m : gmap wsi_ptr lws) (p q : wsi_ptr) (x : lws) :
  m !! p = None -> m !! q = Some x -> p <> q.
Proof. intros Hp Hq ->. congruence. Qed.

(** Unfold the monadic code, the state accessors and the member
    assignments in hypothesis [Hrun]; [adopt_prepare] and [adopt_finish]
    stay folded. *)
Ltac unfold_model Hrun :=
  cbv beta iota zeta delta
    [bind_M ret undefined emit get_state put_state get_context put_context
     put_wsis put_peers load store when
     st trace the_context wsis peers vhost_list
     compatible_close lws_stats_bump lws_zalloc_wsi lws_free_wsi
     lws_vhost_bind_wsi lws_vhost_unbind_wsi lws_get_or_create_peer
     lws_peer_add_wsi call_protocol_callback lws_ensure_user_space
     role_call_adoption_bind call_plat_set_nonblocking
     call_insert_wsi_socket_into_fds call_server_socket_service_ssl
     call_close_free_wsi lws_cancel_service_pt
     lws_create_new_server_wsi adopt_bail adopt_fail adopt_peer_check
     lws_adopt_descriptor_vhost_exit
     lws_adopt_descriptor_vhost returned_wsi fst snd
     lws_buflist_append_segment add_to_dll_buflist_owner
     call_header_table_attach raise_pollin call_service_fd_tsi
     adopt_socket_readbuf
     count_wsi_allocated set_count_wsi_allocated
     lws_zeroed
     wsistate tsi vhost wsi_context pending_timeout rxflow_change_to
     hdr_parsing_completed tls_use_ssl protocol user_space desc
     position_in_fds_table parent sibling_list child_list
     undergoing_init_from_other_pt role_ops peer buflist http_ah
     set_wsistate set_tsi set_vhost set_wsi_context set_pending_timeout
     set_rxflow_change_to set_hdr_parsing_completed set_tls_use_ssl
     set_protocol set_user_space set_desc set_position_in_fds_table
     set_parent set_sibling_list set_child_list
     set_undergoing_init_from_other_pt set_role_ops set_peer set_buflist
     set_http_ah] in Hrun.

Ltac distinct_wsi :=
  first [ assumption
        | apply not_eq_sym; assumption
        | eapply lookup_distinct; eassumption
        | apply not_eq_sym; eapply lookup_distinct; eassumption ].

(** One step: resolve a lookup in the heap, or split on the condition the
    execution is stuck at. *)
Ltac exec_step Hrun :=
  first
  [ rewrite lookup_insert_eq in Hrun
  | rewrite lookup_insert_ne in Hrun by distinct_wsi
  | rewrite insert_insert_eq in Hrun
  | match type of Hrun with
    | context [?m !! ?k] =>
      match goal with
      | Hl : m !! k = _ |- _ => rewrite Hl in Hrun
      end
    end
  | match type of Hrun with
    | context [match ?c with _ => _ end] =>
      lazymatch c with
      | context [match _ with _ => _ end] => fail
      | _ => destruct c eqn:?
      end
    end ];
  cbv beta iota zeta in Hrun;
  try discriminate Hrun.

Ltac exec Hrun := unfold_model Hrun; repeat exec_step Hrun.

(** The events in front of [t] in the list [l]. *)
Ltac prefix_of l t :=
  lazymatch l with
  | t => constr:(@nil event)
  | ?e :: ?l' => let r := prefix_of l' t in constr:(e :: r)
  end.

(** Name the new events of a run that was executed to its end. *)
Ltac new_events :=
  cbn [trace st];
  lazymatch goal with
  | |- exists evs, ?l = evs ++ ?t /\ _ =>
    let pre := prefix_of l t in
    exists pre; split; [reflexivity |]
  end.

(** ** The thread selector *)

Section idlest.
Variable context : lws_context.
Hypothesis Hok : threads_ok context.

Let T := Z.to_nat (count_threads context).

Lemma to_uint_small x : 0 <= x < 2 ^ 32 -> to_uint x = x.
Proof. intros H. unfold to_uint. apply Z.mod_small. exact H. Qed.

Lemma capacity_test_uint p :
  0 <= fds_count p < UINT_MAX ->
  (to_uint (fds_count p) =? to_uint (fd_limit_per_thread context - 1)) = false
  <-> has_room context p.
Proof.
  intros Hp. destruct Hok as (_ & HC & _). unfold has_room, UINT_MAX in *.
  rewrite (to_uint_small (fds_count p)) by lia.
  rewrite Z.eqb_neq.
  destruct (Z.eq_dec (fd_limit_per_thread context) 0) as [H0 | H0].
  - rewrite H0. change (to_uint (0 - 1)) with (2 ^ 32 - 1). lia.
  - rewrite to_uint_small by lia. tauto.
Qed.

Lemma idlest_loop_inv (k : nat) : forall (n : nat) lowest hit,
  (n + k = T)%nat ->
  scan_inv context n lowest hit ->
  exists r lowest', idlest_loop context k n lowest hit = Some r /\
                    scan_inv context T lowest' r.
Proof.
  induction k as [| k IH]; intros n lowest hit Hn Hinv.
  - simpl. exists hit, lowest. split; [reflexivity |].
    replace T with n by lia. exact Hinv.
  - simpl.
    destruct Hok as (Hlen & HC & Hcnt).
    destruct (lookup_lt_is_Some_2 (pt context) n) as [p Hp]; [fold T in Hlen; lia |].
    rewrite Hp.
    assert (Hr : 0 <= fds_count p < UINT_MAX) by (apply (Hcnt n); [fold T; lia | exact Hp]).
    pose proof (capacity_test_uint p Hr) as Hcap.
    rewrite (to_uint_small (fds_count p)) in * by (unfold UINT_MAX in Hr; lia).
    destruct (fds_count p =? to_uint (fd_limit_per_thread context - 1)) eqn:Etest; simpl.
    + (* at capacity: skipped *)
      apply IH; [lia |].
      assert (Hfull : ~ has_room context p) by (intros Hroom; apply Hcap in Hroom; discriminate).
      destruct Hinv as [(-> & -> & Hnone) | (i & q & -> & Hi & Hq & Hroom & -> & Hmin & Hfirst)].
      * left. repeat split; try reflexivity. intros j q Hj Hq.
        destruct (decide (j = n)) as [-> | Hne];
          [replace q with p by congruence; exact Hfull | apply (Hnone j); [lia | exact Hq]].
      * right. exists i, q. repeat split; try assumption; try lia.
        intros j q' Hj Hq' Hroom'.
        destruct (decide (j = n)) as [-> | Hne];
          [exfalso; apply Hfull; replace p with q' by congruence; exact Hroom'
          | apply (Hmin j); [lia | assumption ..]].
    + assert (Hroom : has_room context p) by (apply Hcap; reflexivity).
      destruct (fds_count p <? lowest) eqn:Elt.
      * (* strictly fewer fds than anything seen so far *)
        apply Z.ltb_lt in Elt. apply IH; [lia |].
        right. exists n, p. repeat split; try assumption; try lia.
        -- intros j q Hj Hq Hroomq.
           destruct (decide (j = n)) as [-> | Hne]; [replace q with p by congruence; lia |].
           destruct Hinv as [(_ & _ & Hnone) | (i & p' & _ & Hi & Hp' & _ & -> & Hmin & _)].
           ++ exfalso. apply (Hnone j q); [lia | assumption ..].
           ++ specialize (Hmin j q ltac:(lia) Hq Hroomq). lia.
        -- intros j q Hj Hq Hroomq.
           destruct Hinv as [(_ & _ & Hnone) | (i & p' & _ & Hi & Hp' & _ & -> & Hmin & _)].
           ++ exfalso. apply (Hnone j q); assumption.
           ++ specialize (Hmin j q ltac:(lia) Hq Hroomq). lia.
      * apply Z.ltb_ge in Elt. apply IH; [lia |].
        destruct Hinv as [(-> & -> & Hnone) | (i & q & -> & Hi & Hq & Hroomq & -> & Hmin & Hfirst)].
        -- lia.
        -- right. exists i, q. repeat split; try assumption; try lia.
           intros j q' Hj Hq' Hroom'.
           destruct (decide (j = n)) as [-> | Hne]; [replace q' with p by congruence; lia |].
           apply (Hmin j); [lia | assumption ..].
Qed.
End idlest.

(** C3.  For a context with [count_threads] threads in use and capacity
    [fd_limit_per_thread] (under [threads_ok]), the selector returns the
    index of a thread in use whose [fds_count] differs from the capacity
    minus one and is the least among such threads, the lowest index among
    equal minima; it returns -1 when every thread in use has [fds_count]
    equal to the capacity minus one. *)
Theorem lws_get_idlest_tsi_spec (context : lws_context) :
  threads_ok context ->
  exists r, lws_get_idlest_tsi context = Some r /\
    ((r = -1 /\
      forall (j : nat) q, (j < Z.to_nat (count_threads context))%nat ->
        pt context !! j = Some q ->
        fds_count q = fd_limit_per_thread context - 1) \/
     (exists (i : nat) p, r = Z.of_nat i /\
        (i < Z.to_nat (count_threads context))%nat /\
        pt context !! i = Some p /\
        fds_count p <> fd_limit_per_thread context - 1 /\
        (forall (j : nat) q, (j < Z.to_nat (count_threads context))%nat ->
           pt context !! j = Some q ->
           fds_count q <> fd_limit_per_thread context - 1 ->
           fds_count p <= fds_count q) /\
        (forall (j : nat) q, (j < i)%nat -> pt context !! j = Some q ->
           fds_count q <> fd_limit_per_thread context - 1 ->
           fds_count p < fds_count q))).
Proof.
  intros Hok. unfold lws_get_idlest_tsi.
  destruct (idlest_loop_inv context Hok (Z.to_nat (count_threads context)) 0 UINT_MAX (-1))
    as (r & lowest & Hrun & Hinv).
  - lia.
  - left. repeat split; try reflexivity. intros j q Hj. lia.
  - exists r. split; [exact Hrun |].
    destruct Hinv as [(-> & _ & Hnone) | (i & p & -> & Hi & Hp & Hroom & _ & Hmin & Hfirst)].
    + left. split; [reflexivity |]. intros j q Hj Hq.
      destruct (Z.eq_dec (fds_count q) (fd_limit_per_thread context - 1)); [assumption |].
      exfalso. apply (Hnone j q Hj Hq). assumption.
    + right. exists i, p. repeat split; assumption.
Qed.


Lemma lws_get_idlest_tsi_spec_witness :
  threads_ok sample_context /\
  exists r, lws_get_idlest_tsi sample_context = Some r /\
    ((r = -1 /\
      forall (j : nat) q, (j < Z.to_nat (count_threads sample_context))%nat ->
        pt sample_context !! j = Some q ->
        fds_count q = fd_limit_per_thread sample_context - 1) \/
     (exists (i : nat) p, r = Z.of_nat i /\
        (i < Z.to_nat (count_threads sample_context))%nat /\
        pt sample_context !! i = Some p /\
        fds_count p <> fd_limit_per_thread sample_context - 1 /\
        (forall (j : nat) q, (j < Z.to_nat (count_threads sample_context))%nat ->
           pt sample_context !! j = Some q ->
           fds_count q <> fd_limit_per_thread sample_context - 1 ->
           fds_count p <= fds_count q) /\
        (forall (j : nat) q, (j < i)%nat -> pt sample_context !! j = Some q ->
           fds_count q <> fd_limit_per_thread sample_context - 1 ->
           fds_count p < fds_count q))).
Proof.
  assert (Hok : threads_ok sample_context).
  { unfold threads_ok. simpl. split; [lia |]. split; [lia |].
    intros i p Hi Hp.
    destruct i as [| [| i]]; simpl in Hp; [| | lia];
      injection Hp as <-; unfold UINT_MAX; simpl; lia. }
  split; [exact Hok |].
  apply (lws_get_idlest_tsi_spec sample_context). exact Hok.
Defined.

(** The selector on the sample context: thread 1, with one fd, is chosen
    over thread 0, with three. *)
Example lws_get_idlest_tsi_sample :
  lws_get_idlest_tsi sample_context = Some 1.
Proof. reflexivity. Qed.

(** A thread whose count reads [UINT_MAX] is never below the initial value
    of [lowest], so it is not chosen even if it passes the capacity test;
    such a count lies outside [threads_ok]. *)
Example lws_get_idlest_tsi_uint_max :
  lws_get_idlest_tsi
    {| count_threads := 1; fd_limit_per_thread := 8;
       pt := [ {| fds_count := UINT_MAX; fds := []; dll_buflist_owner := [] |} ];
       count_wsi_allocated := 0; ip_limit_wsi := 0 |} = Some (-1).
Proof. reflexivity. Qed.

(** ** The allocator *)

(** C7.  A successful [lws_create_new_server_wsi] returns a newly allocated
    object whose members are zero except the assigned ones: it is on the
    requested thread (the selector's choice when [fixed_tsi] is negative),
    points at protocol 0 of the vhost, its state word is the one
    [lwsi_set_state] gives for [LRS_UNCONNECTED], its poll-table position is
    [LWS_NO_FDS_POS]; the counter of allocated objects went up by one and
    the last call made is the create notification of protocol 0 with no
    user memory. *)
Theorem lws_create_new_server_wsi_spec (H : lws_header) (E : collaborators)
    (vhost : lws_vhost) (fixed_tsi : Z) (w w' : world) (new_wsi : wsi_ptr) :
  lws_create_new_server_wsi H E vhost fixed_tsi w = Done (Some new_wsi) w' ->
  exists n : Z,
    (if fixed_tsi <? 0
     then lws_get_idlest_tsi (the_context (st w)) = Some n
     else n = fixed_tsi) /\
    0 <= n /\
    wsis (st w) !! new_wsi = None /\
    wsis (st w') =
      <[new_wsi :=
          {| wsistate := lwsi_set_state H (Z.lor 0 (LWSIFR_SERVER H))
                           (LRS_UNCONNECTED H);
             tsi := n;
             vhost := Some vhost;
             wsi_context := true;
             pending_timeout := NO_PENDING_TIMEOUT H;
             rxflow_change_to := LWS_RXFLOW_ALLOW H;
             hdr_parsing_completed := 0;
             tls_use_ssl := LWS_WITH_TLS H && LWS_SSL_ENABLED H vhost;
             protocol := Some 0%nat;
             user_space := None;
             desc := LWS_SOCK_INVALID H;
             position_in_fds_table := LWS_NO_FDS_POS H;
             parent := None;
             sibling_list := None;
             child_list := None;
             undergoing_init_from_other_pt := 0;
             role_ops := None;
             peer := None;
             buflist := [];
             http_ah := false |}]> (wsis (st w)) /\
    count_wsi_allocated (the_context (st w')) =
      count_wsi_allocated (the_context (st w)) + 1 /\
    trace w' =
      Ev_callback 0 new_wsi (LWS_CALLBACK_WSI_CREATE H) None ::
      Ev_vhost_bind_wsi new_wsi :: trace w.
Proof.
  intros Hrun. destruct w as [[c m ps vl] t].
  pose proof (fresh_wsi_unallocated m) as Hfresh.
  exec Hrun.
  all: injection Hrun as <- <-; cbn.
  all: repeat rewrite insert_insert_eq.
  all: eexists; repeat split; try eassumption; try reflexivity; try lia.
Qed.

Lemma lws_create_new_server_wsi_spec_witness :
  let H := sample_header in
  let w := sample_world in
  let w' := world_after sample_created sample_world in
  sample_created = Done (Some 1%nat) w' /\
  exists n : Z,
    (if -1 <? 0
     then lws_get_idlest_tsi (the_context (st w)) = Some n
     else n = -1) /\
    0 <= n /\
    wsis (st w) !! 1%nat = None /\
    wsis (st w') =
      <[1%nat :=
          {| wsistate := lwsi_set_state H (Z.lor 0 (LWSIFR_SERVER H))
                           (LRS_UNCONNECTED H);
             tsi := n;
             vhost := Some sample_vhost;
             wsi_context := true;
             pending_timeout := NO_PENDING_TIMEOUT H;
             rxflow_change_to := LWS_RXFLOW_ALLOW H;
             hdr_parsing_completed := 0;
             tls_use_ssl := LWS_WITH_TLS H && LWS_SSL_ENABLED H sample_vhost;
             protocol := Some 0%nat;
             user_space := None;
             desc := LWS_SOCK_INVALID H;
             position_in_fds_table := LWS_NO_FDS_POS H;
             parent := None;
             sibling_list := None;
             child_list := None;
             undergoing_init_from_other_pt := 0;
             role_ops := None;
             peer := None;
             buflist := [];
             http_ah := false |}]> (wsis (st w)) /\
    count_wsi_allocated (the_context (st w')) =
      count_wsi_allocated (the_context (st w)) + 1 /\
    trace w' =
      Ev_callback 0 1%nat (LWS_CALLBACK_WSI_CREATE H) None ::
      Ev_vhost_bind_wsi 1%nat :: trace w.
Proof.
  split.
  - vm_compute. reflexivity.
  - apply (lws_create_new_server_wsi_spec sample_header
             (sample_collaborators 0 0 0 0) sample_vhost (-1) sample_world).
    vm_compute. reflexivity.
Defined.

(** ** What the pipeline adds to the trace *)

Lemma emits_weaken {A : Type} (m : M A) (R1 R2 : A -> list event -> Prop) :
  emits m R1 -> (forall a evs, R1 a evs -> R2 a evs) -> emits m R2.
Proof.
  intros Hm HR w a w' Hrun. apply Hm in Hrun as (evs & Ht & H1).
  exists evs. split; [exact Ht | apply HR; exact H1].
Qed.

Lemma unwind_is_milestone (l : list event) :
  count_events is_milestone l = O -> count_events is_unwind l = O.
Proof.
  induction l as [| e l IH]; simpl; [reflexivity |].
  destruct e; simpl; intros Hc; try discriminate Hc; apply IH; exact Hc.
Qed.

Lemma flag_store_is_milestone (p : wsi_ptr) (l : list event) :
  count_events is_milestone l = O ->
  count_events (is_init_flag_store p) l = O.
Proof.
  induction l as [| e l IH]; simpl; [reflexivity |].
  destruct e; simpl; intros Hc; try discriminate Hc; apply IH; exact Hc.
Qed.

Lemma registration_is_milestone (p : wsi_ptr) (l : list event) :
  count_events is_milestone l = O ->
  count_events (is_registration p) l = O.
Proof.
  induction l as [| e l IH]; simpl; [reflexivity |].
  destruct e; simpl; intros Hc; try discriminate Hc; apply IH; exact Hc.
Qed.

(** The events in front of, and behind, the store of 1 to the flag in a
    list of events. *)
Ltac before_flag_set l :=
  lazymatch l with
  | Ev_undergoing_init_from_other_pt _ 1 :: _ => constr:(@nil event)
  | ?e :: ?l' => let r := before_flag_set l' in constr:(e :: r)
  end.

Ltac after_flag_set l :=
  lazymatch l with
  | Ev_undergoing_init_from_other_pt _ 1 :: ?l' => constr:(l')
  | _ :: ?l' => after_flag_set l'
  end.

Ltac finish_shape :=
  cbn [finish_events app];
  split; [reflexivity |];
  lazymatch goal with
  | |- exists mid old, ?c :: ?f0 :: ?rb :: ?l = _ /\ _ =>
    let mid := before_flag_set l in
    let old := after_flag_set l in
    exists mid, old; repeat split; reflexivity
  | |- exists rest, _ = _ /\ _ =>
    eexists; repeat split; reflexivity
  end.

Lemma adopt_finish_emits (H : lws_header) (E : collaborators)
    (type fd : Z) (vh_prot_name : option string) (pt_tsi : Z)
    (new_wsi : wsi_ptr) :
  emits (adopt_finish H E type fd vh_prot_name pt_tsi new_wsi)
    (finish_events H type new_wsi).
Proof.
  intros w e w' Hrun. destruct w as [[c m ps vl] t].
  unfold finish_events.
  cbv beta iota zeta delta [adopt_finish] in Hrun.
  exec Hrun.
  all: injection Hrun as <- <-; new_events; finish_shape.
Qed.

Lemma adopt_bail_emits (fd : Z) (parent : option wsi_ptr) (new_wsi : wsi_ptr) :
  emits (adopt_bail fd parent new_wsi)
    (fun e evs => e = At_bail new_wsi /\
       exists pre,
         evs = Ev_compatible_close fd :: Ev_free_wsi new_wsi ::
               Ev_vhost_unbind_wsi new_wsi :: pre /\
         (pre = [] \/ exists mem, pre = [Ev_free_user_space mem])).
Proof.
  intros w e w' Hrun. destruct w as [[c m ps vl] t]. exec Hrun.
  all: injection Hrun as <- <-; new_events.
  all: split; [reflexivity |]; eexists; split; [reflexivity |]; eauto.
Qed.

Lemma adopt_events_stable (H : lws_header) (type fd : Z) :
  stable is_milestone (adopt_events H type fd).
Proof.
  intros e evs older HR Hq. destruct e; cbn [adopt_events] in *.
  - destruct HR as (ty & fin & old & -> & Hty & Hfin & Hold).
    exists ty, fin, (old ++ older).
    rewrite app_assoc, count_events_app, Hold, Hq. auto.
  - rewrite count_events_app, HR, Hq. reflexivity.
  - destruct HR as (old & -> & Hold).
    exists (old ++ older).
    rewrite app_assoc, count_events_app, Hold, Hq. auto.
  - destruct HR as (ty & fin & old & -> & Hty & Hfin & Hold).
    exists ty, fin, (old ++ older).
    rewrite app_assoc, count_events_app, Hold, Hq. auto.
  - destruct HR as (pre & old & -> & Hpre & Hold).
    exists pre, (old ++ older).
    rewrite count_events_app, Hold, Hq.
    split; [| auto]. simpl. rewrite app_assoc. reflexivity.
Qed.

(** The blocks [emits_step] does not open. *)
Ltac adopt_leaf h :=
  lazymatch h with
  | adopt_bail => fail
  | adopt_finish => fail
  | _ => idtac
  end.

Lemma adopt_bail_events (H : lws_header) (type fd : Z)
    (parent : option wsi_ptr) (new_wsi : wsi_ptr) :
  emits (adopt_bail fd parent new_wsi) (adopt_events H type fd).
Proof.
  eapply emits_weaken; [apply adopt_bail_emits |].
  intros e evs (-> & pre & -> & Hpre). cbn [adopt_events].
  exists pre, []. rewrite app_nil_r. auto.
Qed.

Lemma adopt_finish_events (H : lws_header) (E : collaborators)
    (type ty fd : Z) (vh_prot_name : option string) (pt_tsi : Z)
    (new_wsi : wsi_ptr) :
  ty = type \/ ty = Z.land type (Z.lnot (LWS_ADOPT_ALLOW_SSL H)) ->
  emits (adopt_finish H E ty fd vh_prot_name pt_tsi new_wsi)
    (adopt_events H type fd).
Proof.
  intros Hty. eapply emits_weaken; [apply adopt_finish_emits |].
  intros e evs Hfin.
  destruct e; try contradiction; cbn [adopt_events].
  - pose proof Hfin as [-> _].
    exists ty, evs, []. rewrite app_nil_r. auto.
  - pose proof Hfin as [-> _].
    exists ty, evs, []. rewrite app_nil_r. auto.
Qed.

(** Every run of the adoption adds the events [adopt_events] lists for the
    way out it takes. *)
Lemma lws_adopt_descriptor_vhost_emits (H : lws_header) (E : collaborators)
    (vh : lws_vhost) (type fd : Z) (vh_prot_name : option string)
    (parent : option wsi_ptr) :
  emits (lws_adopt_descriptor_vhost_exit H E vh type fd vh_prot_name parent)
    (adopt_events H type fd).
Proof.
  pose proof (adopt_events_stable H type fd) as HR.
  repeat emits_step is_milestone HR adopt_leaf.
  all: try apply adopt_bail_events.
  all: try (apply adopt_finish_events;
            destruct (negb (LWS_SSL_ENABLED H _) ||
                      negb (has_flag type (LWS_ADOPT_SOCKET H)));
            [right | left]; reflexivity).
  - intros w e w' Hrun. destruct w as [s t].
    unfold adopt_events. exec Hrun.
    all: injection Hrun as <- <-; new_events.
    all: exists []; split; reflexivity.
  - reflexivity.
Qed.

(** ** The heap after the bail path *)



Lemma adopt_peer_check_keeps (H : lws_header) (E : collaborators)
    (vh : lws_vhost) (type fd : Z) (r : option (option nat)) (w w' : world) :
  adopt_peer_check H E vh type fd w = Done r w' ->
  the_context (st w') = the_context (st w) /\ wsis (st w') = wsis (st w).
Proof.
  intros Hrun. destruct w as [[c m ps vl] t]. exec Hrun.
  all: injection Hrun as <- <-; split; reflexivity.
Qed.

Lemma create_allocates (H : lws_header) (E : collaborators)
    (vhost : lws_vhost) (fixed_tsi : Z) (w w' : world) (new_wsi : wsi_ptr) :
  lws_create_new_server_wsi H E vhost fixed_tsi w = Done (Some new_wsi) w' ->
  wsis (st w) !! new_wsi = None /\
  (exists x, wsis (st w') = <[new_wsi := x]> (wsis (st w))) /\
  count_wsi_allocated (the_context (st w')) =
    count_wsi_allocated (the_context (st w)) + 1.
Proof.
  intros Hrun. destruct w as [[c m ps vl] t].
  pose proof (fresh_wsi_unallocated m) as Hfresh.
  exec Hrun.
  all: injection Hrun as <- <-; cbn.
  all: split; [assumption |]; split; [eexists; reflexivity | reflexivity].
Qed.




(** ** Unwinding after a failure *)

Lemma count_events_subsumed (P Q : event -> bool) (l : list event) :
  (forall e, Q e = true -> P e = true) ->
  count_events P l = O -> count_events Q l = O.
Proof.
  intros HPQ. induction l as [| e l IH]; simpl; [reflexivity |].
  destruct (Q e) eqn:HQ.
  - rewrite (HPQ e HQ). discriminate.
  - destruct (P e); [discriminate | exact IH].
Qed.

Lemma compatible_close_is_milestone (fd : Z) (e : event) :
  is_compatible_close fd e = true -> is_milestone e = true.
Proof. destruct e; simpl; intros Hq; try discriminate Hq; reflexivity. Qed.



Lemma init_flag_store_is_milestone (p : wsi_ptr) (e : event) :
  is_init_flag_store p e = true -> is_milestone e = true.
Proof. destruct e; simpl; intros Hq; try discriminate Hq; reflexivity. Qed.

Lemma registration_is_a_milestone (p : wsi_ptr) (e : event) :
  is_registration p e = true -> is_milestone e = true.
Proof. destruct e; simpl; intros Hq; try discriminate Hq; reflexivity. Qed.






(** ** The fail path *)




(** ** The initializing flag *)

(** C4, as amended.  In a build for more than one service thread, the
    events of a successful adoption are, most recent first: the wake of the
    owning thread, the store of 0 to [undergoing_init_from_other_pt], the
    role post-bind, events [mid] without a store to the flag, the store of
    1 to the flag, and events [older] with neither a store to the flag nor
    a registration of the slot.  So the flag is set before the slot is put
    into the poll table or handed to the TLS service, and it is cleared
    once, after the role post-bind and before the wake. *)
Theorem adopt_init_flag_order (H : lws_header) (E : collaborators)
    (vh : lws_vhost) (type fd : Z) (vh_prot_name : option string)
    (parent : option wsi_ptr) (w w' : world) (new_wsi : wsi_ptr) :
  1 < LWS_MAX_SMP H ->
  lws_adopt_descriptor_vhost_exit H E vh type fd vh_prot_name parent w
    = Done (Adopted new_wsi) w' ->
  exists ty mid older,
    trace w' =
      Ev_cancel_service_pt new_wsi ::
      Ev_undergoing_init_from_other_pt new_wsi 0 ::
      Ev_role_call_adoption_bind new_wsi (Z.lor ty (_LWS_ADOPT_FINISH H)) ::
      mid ++ Ev_undergoing_init_from_other_pt new_wsi 1 ::
      older ++ trace w /\
    count_events (is_init_flag_store new_wsi) mid = O /\
    count_events (is_init_flag_store new_wsi) older = O /\
    count_events (is_registration new_wsi) older = O.
Proof.
  intros Hsmp Hrun.
  apply lws_adopt_descriptor_vhost_emits in Hrun as (evs & Ht & Hev).
  cbn [adopt_events] in Hev.
  destruct Hev as (ty & fin & older & -> & _ & Hfin & Hold).
  cbn [finish_events] in Hfin. destruct Hfin as [_ Hfin].
  apply Z.ltb_lt in Hsmp. rewrite Hsmp in Hfin.
  destruct Hfin as (mid & old & -> & Hmid & _ & Hold').
  exists ty, mid, (old ++ older). split; [| split; [exact Hmid | split]].
  - rewrite Ht. cbn [app]. rewrite <- !app_assoc. reflexivity.
  - rewrite count_events_app.
    rewrite (count_events_subsumed _ _ _ (init_flag_store_is_milestone new_wsi) Hold).
    rewrite (count_events_subsumed _ _ _ (init_flag_store_is_milestone new_wsi) Hold').
    reflexivity.
  - rewrite count_events_app.
    rewrite (count_events_subsumed _ _ _ (registration_is_a_milestone new_wsi) Hold).
    rewrite (count_events_subsumed _ _ _ (registration_is_a_milestone new_wsi) Hold').
    reflexivity.
Qed.

Lemma adopt_init_flag_order_witness :
  let w := sample_world in
  let w' := world_after sample_adopted sample_world in
  1 < LWS_MAX_SMP sample_header /\
  sample_adopted = Done (Adopted 1%nat) w' /\
  exists ty mid older,
    trace w' =
      Ev_cancel_service_pt 1%nat ::
      Ev_undergoing_init_from_other_pt 1%nat 0 ::
      Ev_role_call_adoption_bind 1%nat
        (Z.lor ty (_LWS_ADOPT_FINISH sample_header)) ::
      mid ++ Ev_undergoing_init_from_other_pt 1%nat 1 ::
      older ++ trace w /\
    count_events (is_init_flag_store 1%nat) mid = O /\
    count_events (is_init_flag_store 1%nat) older = O /\
    count_events (is_registration 1%nat) older = O.
Proof.
  split; [reflexivity |]. split.
  - vm_compute. reflexivity.
  - apply (adopt_init_flag_order sample_header (sample_collaborators 0 0 0 0)
             sample_vhost 2 7 None (Some 0%nat) sample_world).
    + reflexivity.
    + vm_compute. reflexivity.
Defined.

(** C4 as stated fails: in the sample adoption the flag is cleared before
    the owning thread is woken, not after.  The two most recent events are
    the wake and, before it, the store of 0; no store to the flag is more
    recent than the wake. *)
Lemma adopt_clears_flag_before_wake :
  let w' := world_after sample_adopted sample_world in
  sample_adopted = Done (Adopted 1%nat) w' /\
  take 2 (trace w') =
    [Ev_cancel_service_pt 1%nat; Ev_undergoing_init_from_other_pt 1%nat 0] /\
  count_events (is_init_flag_store 1%nat)
    (events_since (is_cancel_service_pt 1%nat) (trace w')) = O /\
  count_events (is_init_flag_store 1%nat) (trace w') = 2%nat.
Proof. vm_compute. repeat split; reflexivity. Qed.

(** ** The peer check *)

(** C2 fails on the code: a socket whose peer is at the ceiling is refused
    before any slot is created and NULL is returned, but the socket is not
    closed; the only event of the call is the statistics bump. *)
Lemma adopt_peer_limit_leaves_socket_open :
  lws_adopt_descriptor_vhost sample_header (sample_collaborators 0 0 0 0)
    sample_vhost 2 7 None None sample_world_peer_full
  = Done None
      {| st := st sample_world_peer_full;
         trace := [Ev_stats_bump 0 LWSSTATS_C_PEER_LIMIT_WSI_DENIED] |} /\
  count_events (is_compatible_close 7)
    [Ev_stats_bump 0 LWSSTATS_C_PEER_LIMIT_WSI_DENIED] = O.
Proof. vm_compute. split; reflexivity. Qed.

(** The two ways out before a slot exists: the refusal by the peer check
    closes nothing, the failure of the slot allocation closes a socket. *)
Lemma adopt_early_exit_closes (H : lws_header) (E : collaborators)
    (vh : lws_vhost) (type fd : Z) (vh_prot_name : option string)
    (parent : option wsi_ptr) (w w' : world) (e : adopt_exit) :
  lws_adopt_descriptor_vhost_exit H E vh type fd vh_prot_name parent w
    = Done e w' ->
  e = Peer_limit \/ e = No_wsi ->
  exists evs,
    trace w' = evs ++ trace w /\
    count_events (is_compatible_close fd) evs =
      match e with
      | No_wsi => if has_flag type (LWS_ADOPT_SOCKET H) then 1%nat else O
      | _ => O
      end.
Proof.
  intros Hrun He.
  apply lws_adopt_descriptor_vhost_emits in Hrun as (evs & Ht & Hev).
  exists evs. split; [exact Ht |].
  destruct He as [-> | ->]; cbn [adopt_events] in Hev.
  - apply (count_events_subsumed _ _ _ (compatible_close_is_milestone fd) Hev).
  - destruct Hev as (older & -> & Hold).
    rewrite count_events_app.
    rewrite (count_events_subsumed _ _ _ (compatible_close_is_milestone fd) Hold).
    destruct (has_flag type (LWS_ADOPT_SOCKET H)); simpl;
      [rewrite Z.eqb_refl |]; reflexivity.
Qed.

(** ** Protocol selection by name *)

Ltac exec_with tac Hrun :=
  unfold_model Hrun;
  repeat first [ progress tac; cbv beta iota zeta in Hrun | exec_step Hrun ].







(** ** Prebuffered bytes *)


(** C10.  For an adopted slot, when the byte pointer is NULL, the length is
    0, or the slot's poll-table position is [LWS_NO_FDS_POS], the call
    returns the slot and nothing changes: no segment is appended, nothing
    is serviced, no event happens. *)
Theorem adopt_socket_readbuf_nothing_to_do (H : lws_header)
    (E : collaborators) (wsi : wsi_ptr) (readbuf : option (list Z))
    (len : Z) (w : world) (x : lws) :
  wsis (st w) !! wsi = Some x ->
  readbuf = None \/ len = 0 \/
    position_in_fds_table x = LWS_NO_FDS_POS H ->
  adopt_socket_readbuf H E (Some wsi) readbuf len w = Done (Some wsi) w.
Proof.
  intros Hx Hcase. unfold adopt_socket_readbuf.
  destruct readbuf as [buf |]; [| reflexivity].
  destruct (len =? 0) eqn:Hlen; [reflexivity |].
  destruct Hcase as [Hnull | [Hzero | Hpos]].
  - discriminate Hnull.
  - apply Z.eqb_neq in Hlen. contradiction.
  - destruct w as [[c m ps vl] t]. cbn [st wsis] in Hx.
    cbv beta iota zeta delta [bind_M load get_state ret st wsis undefined].
    rewrite Hx. cbv beta iota. rewrite Hpos, Z.eqb_refl. reflexivity.
Qed.



Lemma adopt_socket_readbuf_nothing_to_do_witness :
  let H := sample_header in
  let E := sample_collaborators 0 0 0 0 in
  let x := set_position_in_fds_table (-1) sample_parent in
  let w := {| st := {| the_context := sample_context;
                       wsis := {[ 1%nat := x ]};
                       peers := ∅;
                       vhost_list := [sample_vhost] |};
              trace := [] |} in
  wsis (st w) !! 1%nat = Some x /\
  (Some [71; 69; 84; 32] = None \/ 4 = 0 \/
     position_in_fds_table x = LWS_NO_FDS_POS H) /\
  adopt_socket_readbuf H E (Some 1%nat) (Some [71; 69; 84; 32]) 4 w
    = Done (Some 1%nat) w.
Proof.
  intros H E x w.
  assert (Hx : wsis (st w) !! 1%nat = Some x) by (vm_compute; reflexivity).
  assert (Hcase : Some [71; 69; 84; 32] = None \/ 4 = 0 \/
                  position_in_fds_table x = LWS_NO_FDS_POS H)
    by (right; right; reflexivity).
  split; [exact Hx |]. split; [exact Hcase |].
  apply (adopt_socket_readbuf_nothing_to_do H E 1%nat
           (Some [71; 69; 84; 32]) 4 w x Hx Hcase).
Defined.

(** With a header-parsing context attached, the bytes are queued and the
    poll entry of the slot is serviced with [LWS_POLLIN] raised. *)
Example adopt_socket_readbuf_serviced :
  let w' := world_after sample_readbuf_serviced sample_world_polled in
  sample_readbuf_serviced = Done (Some 1%nat) w' /\
  trace w' =
    [ Ev_service_fd_tsi 1 {| pfd_fd := 7; pfd_events := 1; pfd_revents := 1 |};
      Ev_buflist_append_segment 1%nat 4 ] /\
  buflist <$> wsis (st w') !! 1%nat = Some [[71; 69; 84; 32]].
Proof. vm_compute. repeat split; reflexivity. Qed.

(** ** UDP children *)





(** The sample UDP child: the socket 9 is adopted with type 18 (socket,
    UDP), the slot at 1 is returned, and [bind] is not among the events. *)
Example lws_create_adopt_udp_sample :
  let w' := world_after sample_udp_child sample_world in
  sample_udp_child = Done (Some 1%nat) w' /\
  count_events is_bind (trace w') = O /\
  count_events
    (fun e => match e with
              | Ev_role_call_adoption_bind 1%nat 18 => true
              | _ => false
              end) (trace w') = 1%nat.
Proof. vm_compute. repeat split; reflexivity. Qed.

(** When the adoption of the new socket leaves through the bail path, the
    socket is closed there and once more at the label bail2 of
    [lws_create_adopt_udp]. *)
Example lws_create_adopt_udp_closes_again :
  let w' := world_after sample_udp_child_bailed sample_world in
  sample_udp_child_bailed = Done None w' /\
  count_events (is_compatible_close 9) (trace w') = 2%nat.
Proof. vm_compute. split; reflexivity. Qed.

(** * Further properties *)

(** ** The thread selector, for any counts *)

Lemma idlest_loop_unsigned (context : lws_context) (k : nat) :
  forall (n : nat) (lowest hit r : Z),
  idlest_loop context k n lowest hit = Some r ->
  selected_so_far context n lowest hit ->
  exists lowest', selected_so_far context (n + k) lowest' r.
Proof.
  induction k as [| k IH]; intros n lowest hit r Hrun Hinv; simpl in Hrun.
  - injection Hrun as <-. exists lowest. rewrite Nat.add_0_r. exact Hinv.
  - destruct (pt context !! n) as [p |] eqn:Hp; [| discriminate Hrun].
    replace (n + S k)%nat with (S n + k)%nat by lia.
    assert (Hlt : to_uint (fds_count p) < 2 ^ 32)
      by (unfold to_uint; apply Z.mod_pos_bound; lia).
    destruct (negb (to_uint (fds_count p) =?
                    to_uint (fd_limit_per_thread context - 1)) &&
              (to_uint (fds_count p) <? lowest)) eqn:Htest;
      apply IH in Hrun; try exact Hrun.
    + (* the thread is taken *)
      apply andb_true_iff in Htest as [Hcap Hlow].
      apply negb_true_iff, Z.eqb_neq in Hcap. apply Z.ltb_lt in Hlow.
      assert (Hsel : selectable context p).
      { split; [exact Hcap |].
        destruct Hinv as [(_ & -> & _) | (i & q & _ & _ & _ & [_ Hq] & -> & _)]; lia. }
      right. exists n, p.
      split; [reflexivity |]. split; [lia |]. split; [exact Hp |].
      split; [exact Hsel |]. split; [reflexivity |]. split.
      * intros j q Hj Hq Hselq.
        destruct (decide (j = n)) as [-> | Hne]; [replace q with p by congruence; lia |].
        destruct Hinv as [(_ & _ & Hnone) | (i & p' & _ & Hi & Hp' & _ & -> & Hmin & _)].
        -- exfalso. apply (Hnone j q); [lia | assumption ..].
        -- specialize (Hmin j q ltac:(lia) Hq Hselq). lia.
      * intros j q Hj Hq Hselq.
        destruct Hinv as [(_ & _ & Hnone) | (i & p' & _ & Hi & Hp' & _ & -> & Hmin & _)].
        -- exfalso. apply (Hnone j q); assumption.
        -- specialize (Hmin j q ltac:(lia) Hq Hselq). lia.
    + (* the thread is passed over *)
      apply andb_false_iff in Htest.
      destruct Hinv as [(-> & -> & Hnone) | (i & q & -> & Hi & Hq & Hselq & -> & Hmin & Hfirst)].
      * left. split; [reflexivity |]. split; [reflexivity |].
        intros j q Hj Hq [Hcap Hmax].
        destruct (decide (j = n)) as [-> | Hne]; [| apply (Hnone j q); [lia | assumption | split; assumption]].
        replace q with p in * by congruence.
        destruct Htest as [Ht | Ht].
        -- apply negb_false_iff, Z.eqb_eq in Ht. contradiction.
        -- apply Z.ltb_ge in Ht. lia.
      * right. exists i, q.
        split; [reflexivity |]. split; [lia |]. split; [exact Hq |].
        split; [exact Hselq |]. split; [reflexivity |]. split; [| exact Hfirst].
        intros j q' Hj Hq' [Hcap Hmax].
        destruct (decide (j = n)) as [-> | Hne]; [| apply (Hmin j); [lia | assumption | split; assumption]].
        replace q' with p in * by congruence.
        destruct Htest as [Ht | Ht].
        -- apply negb_false_iff, Z.eqb_eq in Ht. contradiction.
        -- apply Z.ltb_ge in Ht. lia.
Qed.

(** X1.  Whatever the fd counts and the capacity are, the selector reads them
    as [unsigned int]: it passes over a thread whose count equals the
    capacity minus one modulo 2^32 or reads as [UINT_MAX], and answers the
    lowest index among the remaining threads in use with the least count,
    an index inside the [pt] array; it answers -1 exactly when no thread
    in use remains. *)
Theorem lws_get_idlest_tsi_unsigned (context : lws_context) (r : Z) :
  lws_get_idlest_tsi context = Some r ->
  (r = -1 /\
   forall (j : nat) q, (j < Z.to_nat (count_threads context))%nat ->
     pt context !! j = Some q -> ~ selectable context q) \/
  (exists (i : nat) p, r = Z.of_nat i /\
     0 <= r < count_threads context /\
     pt context !! i = Some p /\ selectable context p /\
     (forall (j : nat) q, (j < Z.to_nat (count_threads context))%nat ->
        pt context !! j = Some q -> selectable context q ->
        to_uint (fds_count p) <= to_uint (fds_count q)) /\
     (forall (j : nat) q, (j < i)%nat -> pt context !! j = Some q ->
        selectable context q ->
        to_uint (fds_count p) < to_uint (fds_count q))).
Proof.
  intros Hrun. unfold lws_get_idlest_tsi in Hrun.
  apply idlest_loop_unsigned in Hrun.
  - destruct Hrun as (lowest & [(-> & _ & Hnone) | (i & p & -> & Hi & Hp & Hsel & _ & Hmin & Hfirst)]).
    + left. split; [reflexivity | exact Hnone].
    + right. exists i, p. simpl in Hi.
      split; [reflexivity |]. split; [lia |]. split; [exact Hp |].
      split; [exact Hsel |]. split; [exact Hmin | exact Hfirst].
  - left. split; [reflexivity |]. split; [reflexivity |]. intros j q Hj. lia.
Qed.

Lemma lws_get_idlest_tsi_unsigned_witness :
  let context :=
    {| count_threads := 3; fd_limit_per_thread := 0;
       pt := [ {| fds_count := UINT_MAX; fds := []; dll_buflist_owner := [] |};
               {| fds_count := 5; fds := []; dll_buflist_owner := [] |};
               {| fds_count := 5; fds := []; dll_buflist_owner := [] |} ];
       count_wsi_allocated := 0; ip_limit_wsi := 0 |} in
  lws_get_idlest_tsi context = Some 1 /\
  ((1 = -1 /\
    forall (j : nat) q, (j < Z.to_nat (count_threads context))%nat ->
      pt context !! j = Some q -> ~ selectable context q) \/
   (exists (i : nat) p, 1 = Z.of_nat i /\
      0 <= 1 < count_threads context /\
      pt context !! i = Some p /\ selectable context p /\
      (forall (j : nat) q, (j < Z.to_nat (count_threads context))%nat ->
         pt context !! j = Some q -> selectable context q ->
         to_uint (fds_count p) <= to_uint (fds_count q)) /\
      (forall (j : nat) q, (j < i)%nat -> pt context !! j = Some q ->
         selectable context q ->
         to_uint (fds_count p) < to_uint (fds_count q)))).
Proof.
  intros context. split; [reflexivity |].
  apply (lws_get_idlest_tsi_unsigned context 1). reflexivity.
Defined.

(** ** The allocator: failure and explicit thread *)

(** X2.  When [lws_create_new_server_wsi] returns NULL nothing has happened: no
    object is allocated, the counter is untouched and no callback was
    made.  It returns NULL only when no thread was requested and the
    selector found none, or when the allocation failed. *)
Theorem lws_create_new_server_wsi_null (H : lws_header) (E : collaborators)
    (vhost : lws_vhost) (fixed_tsi : Z) (w w' : world) :
  lws_create_new_server_wsi H E vhost fixed_tsi w = Done None w' ->
  w' = w /\
  ((fixed_tsi < 0 /\
    exists n, lws_get_idlest_tsi (the_context (st w)) = Some n /\ n < 0) \/
   lws_zalloc_ok E (st w) = false).
Proof.
  intros Hrun. destruct w as [[c m ps vl] t].
  pose proof (fresh_wsi_unallocated m) as Hfresh.
  exec Hrun.
  all: injection Hrun as <-; split; [reflexivity |]; cbn.
  all: first [ right; assumption
             | left; split; [lia |]; eexists; split; [eassumption | lia]
             | exfalso; congruence ].
Qed.

(** X3.  With a thread requested ([fixed_tsi >= 0]) the selector is not asked
    and the capacity of the thread is not looked at: if the allocation
    succeeds and the vhost has a protocol 0, a slot on that thread is
    returned, also when every thread is full. *)
Theorem lws_create_new_server_wsi_fixed (H : lws_header) (E : collaborators)
    (vhost : lws_vhost) (fixed_tsi : Z) (w : world) (pr : lws_protocols) :
  0 <= fixed_tsi ->
  lws_zalloc_ok E (st w) = true ->
  protocols vhost !! 0%nat = Some pr ->
  exists new_wsi w' x,
    lws_create_new_server_wsi H E vhost fixed_tsi w = Done (Some new_wsi) w' /\
    wsis (st w) !! new_wsi = None /\
    wsis (st w') !! new_wsi = Some x /\
    tsi x = fixed_tsi /\
    the_context (st w') =
      set_count_wsi_allocated
        (count_wsi_allocated (the_context (st w)) + 1) (the_context (st w)).
Proof.
  intros Htsi Hz Hpr. destruct w as [[c m ps vl] t]. cbn [st] in Hz.
  pose proof (fresh_wsi_unallocated m) as Hfresh.
  destruct (lws_create_new_server_wsi H E vhost fixed_tsi
              {| st := {| the_context := c; wsis := m; peers := ps;
                          vhost_list := vl |}; trace := t |})
    as [r w' |] eqn:Hrun.
  - destruct r as [p |].
    + exists p, w'. exec Hrun.
      all: try lia.
      all: injection Hrun as <- <-; cbn.
      all: eexists; split; [reflexivity |]; split; [assumption |].
      all: rewrite lookup_insert_eq; split; [reflexivity |]; split; reflexivity.
    + exfalso. exec Hrun; try lia; congruence.
  - exfalso. exec Hrun; try lia; congruence.
Qed.

Lemma lws_create_new_server_wsi_null_witness :
  let E := sample_collaborators 0 0 0 0 in
  let w := sample_world_full in
  lws_create_new_server_wsi sample_header E sample_vhost (-1) w = Done None w /\
  (w = w /\
   ((-1 < 0 /\
     exists n, lws_get_idlest_tsi (the_context (st w)) = Some n /\ n < 0) \/
    lws_zalloc_ok E (st w) = false)).
Proof.
  intros E w. split; [vm_compute; reflexivity |].
  apply (lws_create_new_server_wsi_null sample_header E sample_vhost (-1) w w).
  vm_compute. reflexivity.
Defined.

Lemma lws_create_new_server_wsi_fixed_witness :
  let H := sample_header in
  let E := sample_collaborators 0 0 0 0 in
  let w := sample_world_full in
  0 <= 1 /\
  lws_zalloc_ok E (st w) = true /\
  protocols sample_vhost !! 0%nat =
    Some {| prot_name := "http"; per_session_data_size := 0 |} /\
  exists new_wsi w' x,
    lws_create_new_server_wsi H E sample_vhost 1 w = Done (Some new_wsi) w' /\
    wsis (st w) !! new_wsi = None /\
    wsis (st w') !! new_wsi = Some x /\
    tsi x = 1 /\
    the_context (st w') =
      set_count_wsi_allocated
        (count_wsi_allocated (the_context (st w)) + 1) (the_context (st w)).
Proof.
  intros H E w. split; [lia |]. split; [reflexivity |]. split; [reflexivity |].
  apply (lws_create_new_server_wsi_fixed H E sample_vhost 1 w
           {| prot_name := "http"; per_session_data_size := 0 |}).
  - lia.
  - reflexivity.
  - reflexivity.
Defined.

(** ** The ways out of an adoption *)

Section ensuring.
Context {A B : Type}.

Lemma ensures_ret (a : A) (Q : A -> world -> Prop) :
  (forall w, Q a w) -> ensures (ret a) Q.
Proof. intros HQ w a' w' Hrun. apply ret_inv in Hrun as [<- <-]. apply HQ. Qed.

Lemma ensures_undefined (Q : A -> world -> Prop) : ensures undefined Q.
Proof. intros w a w' Hrun. discriminate Hrun. Qed.

Lemma ensures_bind (m : M A) (k : A -> M B) (Q : B -> world -> Prop) :
  (forall a, ensures (k a) Q) -> ensures (bind_M m k) Q.
Proof.
  intros Hk w b w' Hrun.
  apply bind_inv in Hrun as (a & w1 & _ & Hrun2).
  exact (Hk a w1 b w' Hrun2).
Qed.

Lemma ensures_weaken (m : M A) (Q1 Q2 : A -> world -> Prop) :
  ensures m Q1 -> (forall a w, Q1 a w -> Q2 a w) -> ensures m Q2.
Proof. intros Hm HQ w a w' Hrun. apply HQ. exact (Hm w a w' Hrun). Qed.

End ensuring.

(** Go through the code of [m] for [ensures m Q]; the goals for the blocks
    named in [leaf] and for the returns are left. *)
Ltac ensures_step leaf :=
  lazymatch goal with
  | |- ensures (ret _) _ => apply ensures_ret; intros ?
  | |- ensures undefined _ => apply ensures_undefined
  | |- ensures (bind_M _ _) _ => apply ensures_bind; intros ?
  | |- ensures (match ?c with _ => _ end) _ => destruct c
  | |- ensures ?m _ => let h := head_of m in leaf h; unfold h
  end.

Lemma adopt_bail_exit (fd : Z) (parent : option wsi_ptr) (new_wsi : wsi_ptr) :
  ensures (adopt_bail fd parent new_wsi) (fun e _ => e = At_bail new_wsi).
Proof.
  intros w e w' Hrun.
  apply adopt_bail_emits in Hrun as (evs & _ & -> & _). reflexivity.
Qed.

Lemma adopt_finish_exit (H : lws_header) (E : collaborators)
    (type fd : Z) (vh_prot_name : option string) (pt_tsi : Z)
    (new_wsi : wsi_ptr) :
  ensures (adopt_finish H E type fd vh_prot_name pt_tsi new_wsi)
    (fun e _ => e = Adopted new_wsi \/ e = At_fail new_wsi).
Proof.
  intros w e w' Hrun.
  apply adopt_finish_emits in Hrun as (evs & _ & Hfin).
  destruct e; cbn [finish_events] in Hfin; try contradiction.
  - destruct Hfin as [-> _]. left; reflexivity.
  - destruct Hfin as [-> _]. right; reflexivity.
Qed.

Lemma adopt_peer_check_passed (H : lws_header) (E : collaborators)
    (vh : lws_vhost) (type fd : Z) (peer : option nat) (w w' : world) :
  adopt_peer_check H E vh type fd w = Done (Some peer) w' ->
  trace w' = trace w.
Proof.
  intros Hrun. destruct w as [[c m ps vl] t]. exec Hrun.
  all: injection Hrun as _ <-; reflexivity.
Qed.

Lemma create_null_keeps (H : lws_header) (E : collaborators)
    (vhost : lws_vhost) (fixed_tsi : Z) (w w' : world) :
  lws_create_new_server_wsi H E vhost fixed_tsi w = Done None w' -> w' = w.
Proof.
  intros Hrun. destruct w as [[c m ps vl] t].
  pose proof (fresh_wsi_unallocated m) as Hfresh.
  exec Hrun.
  all: first [ injection Hrun as <-; reflexivity | exfalso; congruence ].
Qed.

(** A run of the adoption, taken apart at the peer check and at the slot
    allocation. *)
Lemma adopt_exit_inv (H : lws_header) (E : collaborators)
    (vh : lws_vhost) (type fd : Z) (vh_prot_name : option string)
    (parent : option wsi_ptr) (w w' : world) (e : adopt_exit) :
  lws_adopt_descriptor_vhost_exit H E vh type fd vh_prot_name parent w
    = Done e w' ->
  exists checked w1,
    adopt_peer_check H E vh type fd w = Done checked w1 /\
    match checked with
    | None => e = Peer_limit /\ w' = w1
    | Some _ =>
      (forall pa, parent = Some pa -> is_Some (wsis (st w1) !! pa)) /\
      exists n new_wsi w2,
        lws_create_new_server_wsi H E vh n w1 = Done new_wsi w2 /\
        match new_wsi with
        | None =>
          e = No_wsi /\
          w' = {| st := st w2;
                  trace := (if has_flag type (LWS_ADOPT_SOCKET H)
                            then [Ev_compatible_close fd] else []) ++ trace w2 |}
        | Some p => exit_wsi e = Some p
        end
    end.
Proof.
  intros Hrun. unfold lws_adopt_descriptor_vhost_exit in Hrun.
  apply bind_inv in Hrun as (checked & w1 & Hpc & Hrun).
  exists checked, w1. split; [exact Hpc |].
  destruct checked as [peer |];
    [| apply ret_inv in Hrun as [<- <-]; split; reflexivity].
  apply bind_inv in Hrun as (n & w2 & Hn & Hrun).
  assert (Hw2 : w2 = w1 /\
                forall pa, parent = Some pa -> is_Some (wsis (st w1) !! pa)).
  { destruct w1 as [[c1 m1 ps1 vl1] t1]. exec Hn.
    - injection Hn as _ <-. split; [reflexivity |].
      intros pa [= <-]. eauto.
    - injection Hn as _ <-. split; [reflexivity |].
      intros pa Hpa. discriminate Hpa. }
  destruct Hw2 as [-> Hpar]. clear Hn. split; [exact Hpar |].
  apply bind_inv in Hrun as (new & w3 & Hcreate & Hrun).
  exists n, new, w3. split; [exact Hcreate |].
  destruct new as [p |].
  - revert Hrun.
    match goal with
    | |- ?m _ = _ -> _ =>
      enough (Hen : ensures m (fun e _ => exit_wsi e = Some p))
        by (intros Hrun; exact (Hen _ _ _ Hrun))
    end.
    repeat ensures_step adopt_leaf.
    all: first
      [ eapply ensures_weaken;
        [apply adopt_bail_exit | intros ? _ ->; reflexivity]
      | eapply ensures_weaken;
        [apply adopt_finish_exit | intros ? _ [-> | ->]; reflexivity] ].
  - destruct w3 as [s3 t3].
    destruct (has_flag type (LWS_ADOPT_SOCKET H)).
    + unfold_model Hrun. injection Hrun as <- <-. split; reflexivity.
    + unfold_model Hrun. injection Hrun as <- <-. split; reflexivity.
Qed.

(** X4.  The connection object an adoption returns, or tears down on its
    fail or bail path, is one this call allocated: its address was not
    allocated before the call, and it is not the parent. *)
Theorem adopt_slot_is_fresh (H : lws_header) (E : collaborators)
    (vh : lws_vhost) (type fd : Z) (vh_prot_name : option string)
    (parent : option wsi_ptr) (w w' : world) (e : adopt_exit) (q : wsi_ptr) :
  lws_adopt_descriptor_vhost_exit H E vh type fd vh_prot_name parent w
    = Done e w' ->
  exit_wsi e = Some q ->
  wsis (st w) !! q = None /\ parent <> Some q.
Proof.
  intros Hrun Hq.
  apply adopt_exit_inv in Hrun as (checked & w1 & Hpc & Hrest).
  apply adopt_peer_check_keeps in Hpc as [_ Hm1].
  destruct checked as [peer |];
    [| destruct Hrest as [-> _]; discriminate Hq].
  destruct Hrest as (Hpar & n & new & w2 & Hcreate & Hrest).
  destruct new as [p |]; [| destruct Hrest as [-> _]; discriminate Hq].
  rewrite Hq in Hrest. injection Hrest as ->.
  apply create_allocates in Hcreate as (Hfresh & _ & _).
  rewrite Hm1 in Hfresh, Hpar. split; [exact Hfresh |].
  intros Hpa. destruct (Hpar p Hpa) as [x Hx]. congruence.
Qed.

Lemma adopt_slot_is_fresh_witness :
  let w := sample_world in
  let w' := world_after sample_adopted sample_world in
  sample_adopted = Done (Adopted 1%nat) w' /\
  exit_wsi (Adopted 1%nat) = Some 1%nat /\
  wsis (st w) !! 1%nat = None /\ Some 0%nat <> Some 1%nat.
Proof.
  intros w w'. split; [vm_compute; reflexivity |]. split; [reflexivity |].
  apply (adopt_slot_is_fresh sample_header (sample_collaborators 0 0 0 0)
           sample_vhost 2 7 None (Some 0%nat) w w' (Adopted 1%nat) 1%nat).
  - vm_compute. reflexivity.
  - reflexivity.
Defined.

(** X5.  When no slot can be allocated the adoption changes neither the
    context nor the allocated objects, and its only event is the close of
    the descriptor when that is a socket: a file descriptor is left
    open. *)
Theorem adopt_no_wsi_effect (H : lws_header) (E : collaborators)
    (vh : lws_vhost) (type fd : Z) (vh_prot_name : option string)
    (parent : option wsi_ptr) (w w' : world) :
  lws_adopt_descriptor_vhost_exit H E vh type fd vh_prot_name parent w
    = Done No_wsi w' ->
  the_context (st w') = the_context (st w) /\
  wsis (st w') = wsis (st w) /\
  trace w' =
    (if has_flag type (LWS_ADOPT_SOCKET H)
     then [Ev_compatible_close fd] else []) ++ trace w.
Proof.
  intros Hrun.
  apply adopt_exit_inv in Hrun as (checked & w1 & Hpc & Hrest).
  destruct checked as [peer |];
    [| destruct Hrest as [Hq _]; discriminate Hq].
  pose proof (adopt_peer_check_passed _ _ _ _ _ _ _ _ Hpc) as Ht1.
  apply adopt_peer_check_keeps in Hpc as [Hc1 Hm1].
  destruct Hrest as (_ & n & new & w2 & Hcreate & Hrest).
  destruct new as [p |]; [discriminate Hrest |].
  apply create_null_keeps in Hcreate as ->.
  destruct Hrest as [_ ->]. cbn [st trace].
  rewrite Ht1. auto.
Qed.

Lemma adopt_no_wsi_effect_witness :
  let H := sample_header in
  let E := sample_collaborators 0 0 0 0 in
  let w := sample_world_full in
  let w' := world_after
              (lws_adopt_descriptor_vhost_exit H E sample_vhost 2 7 None None w)
              w in
  lws_adopt_descriptor_vhost_exit H E sample_vhost 2 7 None None w
    = Done No_wsi w' /\
  the_context (st w') = the_context (st w) /\
  wsis (st w') = wsis (st w) /\
  trace w' =
    (if has_flag 2 (LWS_ADOPT_SOCKET H)
     then [Ev_compatible_close 7] else []) ++ trace w.
Proof.
  intros H E w w'. split; [vm_compute; reflexivity |].
  apply (adopt_no_wsi_effect H E sample_vhost 2 7 None None w w').
  vm_compute. reflexivity.
Defined.

(** ** The peer ceiling *)

(** X6.  In a build with peer limits, a socket whose remote address has a
    peer record at or above a nonzero ceiling is always refused: the call
    returns NULL, the state is as before the call, and the only event is
    the bump of the denial statistic; in particular the socket is not
    closed and no slot is allocated. *)
Theorem adopt_peer_refused (H : lws_header) (E : collaborators)
    (vh : lws_vhost) (type fd : Z) (vh_prot_name : option string)
    (parent : option wsi_ptr) (w : world) (pe : nat) (r : lws_peer) :
  LWS_WITH_PEER_LIMITS H = true ->
  has_flag type (LWS_ADOPT_SOCKET H) = true ->
  peer_of_sockfd E fd = Some pe ->
  peers (st w) !! pe = Some r ->
  ip_limit_wsi (the_context (st w)) <> 0 ->
  ip_limit_wsi (the_context (st w)) <= count_wsi r ->
  lws_adopt_descriptor_vhost_exit H E vh type fd vh_prot_name parent w =
    Done Peer_limit
      {| st := st w;
         trace := Ev_stats_bump 0 LWSSTATS_C_PEER_LIMIT_WSI_DENIED :: trace w |} /\
  lws_adopt_descriptor_vhost H E vh type fd vh_prot_name parent w =
    Done None
      {| st := st w;
         trace := Ev_stats_bump 0 LWSSTATS_C_PEER_LIMIT_WSI_DENIED :: trace w |}.
Proof.
  intros Hpl Hsock Hpe Hr Hlim Hfull.
  destruct w as [[c m ps vl] t]. cbn [st the_context peers trace] in *.
  apply Z.eqb_neq in Hlim. apply Z.leb_le in Hfull.
  assert (Hexit :
    lws_adopt_descriptor_vhost_exit H E vh type fd vh_prot_name parent
      {| st := {| the_context := c; wsis := m; peers := ps; vhost_list := vl |};
         trace := t |} =
    Done Peer_limit
      {| st := {| the_context := c; wsis := m; peers := ps; vhost_list := vl |};
         trace := Ev_stats_bump 0 LWSSTATS_C_PEER_LIMIT_WSI_DENIED :: t |}).
  { unfold lws_adopt_descriptor_vhost_exit, adopt_peer_check,
      lws_get_or_create_peer.
    rewrite Hpl, Hsock, Hpe.
    cbv beta iota zeta delta
      [bind_M ret get_state get_context st peers the_context].
    rewrite Hr. cbv beta iota zeta. rewrite Hr, Hlim, Hfull. reflexivity. }
  split; [exact Hexit |].
  unfold lws_adopt_descriptor_vhost, bind_M. rewrite Hexit. reflexivity.
Qed.

Lemma adopt_peer_refused_witness :
  let H := sample_header in
  let E := sample_collaborators 0 0 0 0 in
  let w := sample_world_peer_full in
  let w' := {| st := st w;
               trace := Ev_stats_bump 0 LWSSTATS_C_PEER_LIMIT_WSI_DENIED ::
                        trace w |} in
  LWS_WITH_PEER_LIMITS H = true /\
  has_flag 2 (LWS_ADOPT_SOCKET H) = true /\
  peer_of_sockfd E 7 = Some 1%nat /\
  peers (st w) !! 1%nat = Some {| count_wsi := 2 |} /\
  ip_limit_wsi (the_context (st w)) <> 0 /\
  ip_limit_wsi (the_context (st w)) <= count_wsi {| count_wsi := 2 |} /\
  lws_adopt_descriptor_vhost_exit H E sample_vhost 2 7 None (Some 0%nat) w =
    Done Peer_limit w' /\
  lws_adopt_descriptor_vhost H E sample_vhost 2 7 None (Some 0%nat) w =
    Done None w'.
Proof.
  intros H E w w'.
  split; [reflexivity |]. split; [reflexivity |]. split; [reflexivity |].
  split; [reflexivity |]. split; [vm_compute; discriminate |].
  split; [vm_compute; discriminate |].
  apply (adopt_peer_refused H E sample_vhost 2 7 None (Some 0%nat) w 1%nat
           {| count_wsi := 2 |}).
  - reflexivity.
  - reflexivity.
  - reflexivity.
  - reflexivity.
  - vm_compute. discriminate.
  - vm_compute. discriminate.
Defined.

(** X7.  An adoption is refused by the peer check only in a build with peer
    limits, for a socket, under a nonzero ceiling that the peer record of
    the socket's remote address has reached; the refusal leaves the
    context and the allocated objects as they were and adds the bump of
    the denial statistic as its only event. *)
Theorem adopt_peer_limit_only (H : lws_header) (E : collaborators)
    (vh : lws_vhost) (type fd : Z) (vh_prot_name : option string)
    (parent : option wsi_ptr) (w w' : world) :
  lws_adopt_descriptor_vhost_exit H E vh type fd vh_prot_name parent w
    = Done Peer_limit w' ->
  LWS_WITH_PEER_LIMITS H = true /\
  has_flag type (LWS_ADOPT_SOCKET H) = true /\
  ip_limit_wsi (the_context (st w)) <> 0 /\
  (exists pe r, peer_of_sockfd E fd = Some pe /\
     peers (st w') !! pe = Some r /\
     ip_limit_wsi (the_context (st w)) <= count_wsi r) /\
  the_context (st w') = the_context (st w) /\
  wsis (st w') = wsis (st w) /\
  trace w' = Ev_stats_bump 0 LWSSTATS_C_PEER_LIMIT_WSI_DENIED :: trace w.
Proof.
  intros Hrun.
  apply adopt_exit_inv in Hrun as (checked & w1 & Hpc & Hrest).
  destruct checked as [peer |].
  { destruct Hrest as (_ & n & new & w2 & _ & Hrest).
    destruct new as [p |]; [discriminate Hrest |].
    destruct Hrest as [Hq _]. discriminate Hq. }
  destruct Hrest as [_ ->].
  destruct w as [[c m ps vl] t]. exec Hpc.
  all: injection Hpc as <-; cbn.
  all: match goal with
       | Hc : negb (_ =? 0) && (_ <=? _) = true |- _ =>
         apply andb_true_iff in Hc as [Hnz Hle];
         apply negb_true_iff, Z.eqb_neq in Hnz; apply Z.leb_le in Hle
       end.
  all: split; [reflexivity |]; split; [reflexivity |]; split; [assumption |].
  all: split; [| auto].
  all: eexists; eexists; split; [reflexivity |]; split;
    [first [eassumption | apply lookup_insert_eq] | cbn; assumption].
Qed.

Lemma adopt_peer_limit_only_witness :
  let H := sample_header in
  let E := sample_collaborators 0 0 0 0 in
  let w := sample_world_peer_full in
  let w' := {| st := st w;
               trace := [Ev_stats_bump 0 LWSSTATS_C_PEER_LIMIT_WSI_DENIED] |} in
  lws_adopt_descriptor_vhost_exit H E sample_vhost 2 7 None None w
    = Done Peer_limit w' /\
  LWS_WITH_PEER_LIMITS H = true /\
  has_flag 2 (LWS_ADOPT_SOCKET H) = true /\
  ip_limit_wsi (the_context (st w)) <> 0 /\
  (exists pe r, peer_of_sockfd E 7 = Some pe /\
     peers (st w') !! pe = Some r /\
     ip_limit_wsi (the_context (st w)) <= count_wsi r) /\
  the_context (st w') = the_context (st w) /\
  wsis (st w') = wsis (st w) /\
  trace w' = Ev_stats_bump 0 LWSSTATS_C_PEER_LIMIT_WSI_DENIED :: trace w.
Proof.
  intros H E w w'. split; [vm_compute; reflexivity |].
  apply (adopt_peer_limit_only H E sample_vhost 2 7 None None w w').
  vm_compute. reflexivity.
Defined.

(** ** Registration with the service thread *)

Lemma adopt_finish_registers (H : lws_header) (E : collaborators)
    (ty fd : Z) (vh_prot_name : option string) (pt_tsi : Z)
    (new_wsi : wsi_ptr) :
  emits (adopt_finish H E ty fd vh_prot_name pt_tsi new_wsi) (registers H ty).
Proof.
  intros w e w' Hrun. destruct w as [[c m ps vl] t].
  cbv beta iota zeta delta [adopt_finish] in Hrun.
  exec Hrun.
  all: injection Hrun as <- <-; new_events.
  all: unfold registers; cbn [count_events is_pt_lock is_pt_unlock
         is_insert_into_fds is_service_ssl Nat.add].
  all: repeat match goal with
       | Hc : negb _ = true |- _ => apply negb_true_iff in Hc
       | Hc : negb _ = false |- _ => apply negb_false_iff in Hc
       end.
  all: repeat split; try lia; try (intros; lia); try (intros; congruence).
  all: try (intros ? ? [? | ?]; congruence).
Qed.

Lemma has_flag_stripped (t A : Z) : has_flag (Z.land t (Z.lnot A)) A = false.
Proof.
  unfold has_flag.
  replace (Z.land (Z.land t (Z.lnot A)) A) with 0; [reflexivity |].
  symmetry. apply Z.bits_inj'. intros n Hn.
  rewrite !Z.land_spec, Z.lnot_spec, Z.bits_0 by exact Hn.
  destruct (Z.testbit t n), (Z.testbit A n); reflexivity.
Qed.

Lemma pt_lock_is_registering (e : event) :
  is_pt_lock e = true -> is_registering e = true.
Proof. destruct e; simpl; intros Hq; try discriminate Hq; reflexivity. Qed.

Lemma pt_unlock_is_registering (e : event) :
  is_pt_unlock e = true -> is_registering e = true.
Proof. destruct e; simpl; intros Hq; try discriminate Hq; reflexivity. Qed.

Lemma insert_is_registering (e : event) :
  is_insert_into_fds e = true -> is_registering e = true.
Proof. destruct e; simpl; intros Hq; try discriminate Hq; reflexivity. Qed.

Lemma service_ssl_is_registering (e : event) :
  is_service_ssl e = true -> is_registering e = true.
Proof. destruct e; simpl; intros Hq; try discriminate Hq; reflexivity. Qed.

Lemma adoption_registers_quiet (H : lws_header) (type : Z) (e : adopt_exit)
    (evs : list event) :
  count_events is_registering evs = O ->
  (forall q, e <> Adopted q) ->
  adoption_registers H type e evs.
Proof.
  intros Hq He. unfold adoption_registers.
  rewrite (count_events_subsumed _ _ _ pt_lock_is_registering Hq).
  rewrite (count_events_subsumed _ _ _ pt_unlock_is_registering Hq).
  rewrite (count_events_subsumed _ _ _ insert_is_registering Hq).
  rewrite (count_events_subsumed _ _ _ service_ssl_is_registering Hq).
  split; [reflexivity |]. split; [reflexivity |]. split; [lia |].
  split; [intros Hc; contradiction |].
  intros q Heq. destruct (He q Heq).
Qed.

Lemma adoption_registers_stable (H : lws_header) (type : Z) :
  stable is_registering (adoption_registers H type).
Proof.
  intros e evs older HR Hq. unfold adoption_registers in *.
  rewrite !count_events_app.
  rewrite (count_events_subsumed _ _ _ pt_lock_is_registering Hq).
  rewrite (count_events_subsumed _ _ _ pt_unlock_is_registering Hq).
  rewrite (count_events_subsumed _ _ _ insert_is_registering Hq).
  rewrite (count_events_subsumed _ _ _ service_ssl_is_registering Hq).
  rewrite !Nat.add_0_r. exact HR.
Qed.

Lemma adopt_bail_registers (H : lws_header) (type fd : Z)
    (parent : option wsi_ptr) (new_wsi : wsi_ptr) :
  emits (adopt_bail fd parent new_wsi) (adoption_registers H type).
Proof.
  eapply emits_weaken; [apply adopt_bail_emits |].
  intros e evs (-> & pre & -> & Hpre).
  apply adoption_registers_quiet; [| discriminate].
  destruct Hpre as [-> | [mem ->]]; reflexivity.
Qed.

Lemma adopt_finish_registers_stripped (H : lws_header) (E : collaborators)
    (type fd : Z) (vh_prot_name : option string) (pt_tsi : Z)
    (new_wsi : wsi_ptr) :
  emits (adopt_finish H E (Z.land type (Z.lnot (LWS_ADOPT_ALLOW_SSL H))) fd
           vh_prot_name pt_tsi new_wsi)
    (adoption_registers H type).
Proof.
  eapply emits_weaken; [apply adopt_finish_registers |].
  intros e evs (Hl & Hu & Hone & Hssl & _ & Had).
  rewrite has_flag_stripped in Hssl, Had.
  split; [exact Hl |]. split; [exact Hu |]. split; [exact Hone |].
  split.
  - intros Hc. destruct (Hssl Hc) as [Hf _]. discriminate Hf.
  - intros q Hq _. apply (Had q Hq). left; reflexivity.
Qed.

Lemma adopt_finish_registers_socket (H : lws_header) (E : collaborators)
    (type fd : Z) (vh_prot_name : option string) (pt_tsi : Z)
    (new_wsi : wsi_ptr) :
  has_flag type (LWS_ADOPT_SOCKET H) = true ->
  emits (adopt_finish H E type fd vh_prot_name pt_tsi new_wsi)
    (adoption_registers H type).
Proof.
  intros Hsock. eapply emits_weaken; [apply adopt_finish_registers |].
  intros e evs (Hl & Hu & Hone & Hssl & _ & Had).
  split; [exact Hl |]. split; [exact Hu |]. split; [exact Hone |].
  split.
  - intros Hc. destruct (Hssl Hc) as [Hf Hws]. auto.
  - exact Had.
Qed.

(** Every run of the adoption registers the slot as [adoption_registers]
    says. *)
Lemma lws_adopt_descriptor_vhost_registers (H : lws_header)
    (E : collaborators) (vh : lws_vhost) (type fd : Z)
    (vh_prot_name : option string) (parent : option wsi_ptr) :
  emits (lws_adopt_descriptor_vhost_exit H E vh type fd vh_prot_name parent)
    (adoption_registers H type).
Proof.
  pose proof (adoption_registers_stable H type) as HR.
  repeat emits_step is_registering HR adopt_leaf.
  all: try apply adopt_bail_registers.
  all: try (apply adoption_registers_quiet; [reflexivity | discriminate]).
  all: destruct (LWS_SSL_ENABLED H _); cbn [negb orb];
    try apply adopt_finish_registers_stripped.
  all: destruct (has_flag type (LWS_ADOPT_SOCKET H)) eqn:Hsock; cbn [negb];
    try apply adopt_finish_registers_stripped.
  all: apply adopt_finish_registers_socket; exact Hsock.
Qed.



(** X9.  The adoption hands the descriptor to the TLS service only when
    the caller allowed TLS for a socket, and never in a build without
    server support; a descriptor that is not a socket is never handed to
    it.  No run both inserts the slot into the poll table and hands it to
    the TLS service. *)
Theorem adopt_tls_service_only_for_sockets (H : lws_header)
    (E : collaborators) (vh : lws_vhost) (type fd : Z)
    (vh_prot_name : option string) (parent : option wsi_ptr)
    (w w' : world) (e : adopt_exit) :
  lws_adopt_descriptor_vhost_exit H E vh type fd vh_prot_name parent w
    = Done e w' ->
  exists evs,
    trace w' = evs ++ trace w /\
    (count_events is_insert_into_fds evs +
     count_events is_service_ssl evs <= 1)%nat /\
    (count_events is_service_ssl evs <> O ->
     has_flag type (LWS_ADOPT_ALLOW_SSL H) = true /\
     has_flag type (LWS_ADOPT_SOCKET H) = true /\
     LWS_WITHOUT_SERVER H = false).
Proof.
  intros Hrun.
  apply lws_adopt_descriptor_vhost_registers in Hrun
    as (evs & Ht & _ & _ & Hone & Hssl & _).
  exists evs. auto.
Qed.

Lemma adopt_tls_service_only_for_sockets_witness :
  let w := sample_world in
  let w' := world_after sample_tls_adopted sample_world in
  sample_tls_adopted = Done (Adopted 1%nat) w' /\
  exists evs,
    trace w' = evs ++ trace w /\
    (count_events is_insert_into_fds evs +
     count_events is_service_ssl evs <= 1)%nat /\
    (count_events is_service_ssl evs <> O ->
     has_flag 7 (LWS_ADOPT_ALLOW_SSL sample_header) = true /\
     has_flag 7 (LWS_ADOPT_SOCKET sample_header) = true /\
     LWS_WITHOUT_SERVER sample_header = false).
Proof.
  intros w w'. split; [vm_compute; reflexivity |].
  apply (adopt_tls_service_only_for_sockets sample_header
           (sample_collaborators 0 0 0 0) sample_tls_vhost 7 7 None None
           w w' (Adopted 1%nat)).
  vm_compute. reflexivity.
Defined.

(** X10.  A successful adoption has handed the slot to its service thread
    exactly once, by the insertion into the poll table or by the TLS
    service, unless TLS was allowed in a build without server support. *)
Theorem adopt_success_registers_once (H : lws_header) (E : collaborators)
    (vh : lws_vhost) (type fd : Z) (vh_prot_name : option string)
    (parent : option wsi_ptr) (w w' : world) (new_wsi : wsi_ptr) :
  lws_adopt_descriptor_vhost_exit H E vh type fd vh_prot_name parent w
    = Done (Adopted new_wsi) w' ->
  has_flag type (LWS_ADOPT_ALLOW_SSL H) = false \/
    LWS_WITHOUT_SERVER H = false ->
  exists evs,
    trace w' = evs ++ trace w /\
    (count_events is_insert_into_fds evs +
     count_events is_service_ssl evs = 1)%nat.
Proof.
  intros Hrun Hcase.
  apply lws_adopt_descriptor_vhost_registers in Hrun
    as (evs & Ht & _ & _ & _ & _ & Had).
  exists evs. split; [exact Ht |]. exact (Had new_wsi eq_refl Hcase).
Qed.

Lemma adopt_success_registers_once_witness :
  let w := sample_world in
  let w' := world_after sample_adopted sample_world in
  sample_adopted = Done (Adopted 1%nat) w' /\
  (has_flag 2 (LWS_ADOPT_ALLOW_SSL sample_header) = false \/
   LWS_WITHOUT_SERVER sample_header = false) /\
  exists evs,
    trace w' = evs ++ trace w /\
    (count_events is_insert_into_fds evs +
     count_events is_service_ssl evs = 1)%nat.
Proof.
  intros w w'. split; [vm_compute; reflexivity |].
  split; [left; reflexivity |].
  apply (adopt_success_registers_once sample_header
           (sample_collaborators 0 0 0 0) sample_vhost 2 7 None (Some 0%nat)
           w w' 1%nat).
  - vm_compute. reflexivity.
  - left. reflexivity.
Defined.

(** ** What a successful adoption leaves *)

Lemma adopt_finish_live (H : lws_header) (E : collaborators)
    (type fd : Z) (vh_prot_name : option string) (pt_tsi : Z)
    (new_wsi : wsi_ptr) :
  ensures (adopt_finish H E type fd vh_prot_name pt_tsi new_wsi)
    (fun e w' => forall q, e = Adopted q ->
       exists x, wsis (st w') !! q = Some x /\
         (1 < LWS_MAX_SMP H -> undergoing_init_from_other_pt x = 0)).
Proof.
  intros w e w' Hrun. destruct w as [[c m ps vl] t].
  cbv beta iota zeta delta [adopt_finish] in Hrun.
  exec Hrun.
  all: injection Hrun as <- <-; intros q Hq; try discriminate Hq.
  all: injection Hq as <-; cbn; rewrite lookup_insert_eq.
  all: eexists; split; [reflexivity |]; cbn; intros Hsmp.
  all: try reflexivity.
  all: exfalso;
    match goal with
    | Hc : (1 <? _) = false |- _ => apply Z.ltb_ge in Hc
    end; lia.
Qed.

(** X11.  The connection object a successful adoption returns is allocated
    when the call returns, and in a build for more than one service thread
    its flag [undergoing_init_from_other_pt] is clear. *)
Theorem adopt_success_is_live (H : lws_header) (E : collaborators)
    (vh : lws_vhost) (type fd : Z) (vh_prot_name : option string)
    (parent : option wsi_ptr) (w w' : world) (new_wsi : wsi_ptr) :
  lws_adopt_descriptor_vhost_exit H E vh type fd vh_prot_name parent w
    = Done (Adopted new_wsi) w' ->
  exists x, wsis (st w') !! new_wsi = Some x /\
    (1 < LWS_MAX_SMP H -> undergoing_init_from_other_pt x = 0).
Proof.
  intros Hrun.
  enough (Hen : ensures
            (lws_adopt_descriptor_vhost_exit H E vh type fd vh_prot_name parent)
            (fun e w' => forall q, e = Adopted q ->
               exists x, wsis (st w') !! q = Some x /\
                 (1 < LWS_MAX_SMP H -> undergoing_init_from_other_pt x = 0)))
    by exact (Hen _ _ _ Hrun new_wsi eq_refl).
  repeat ensures_step adopt_leaf.
  all: try (intros q Hq; discriminate Hq).
  all: first
    [ eapply ensures_weaken;
      [apply adopt_bail_exit
      | intros e1 w1 He1 q Hq; cbv beta in He1; subst e1; discriminate Hq]
    | apply adopt_finish_live ].
Qed.

Lemma adopt_success_is_live_witness :
  let w := sample_world in
  let w' := world_after sample_adopted sample_world in
  sample_adopted = Done (Adopted 1%nat) w' /\
  exists x, wsis (st w') !! 1%nat = Some x /\
    (1 < LWS_MAX_SMP sample_header -> undergoing_init_from_other_pt x = 0).
Proof.
  intros w w'. split; [vm_compute; reflexivity |].
  apply (adopt_success_is_live sample_header (sample_collaborators 0 0 0 0)
           sample_vhost 2 7 None (Some 0%nat) w w' 1%nat).
  vm_compute. reflexivity.
Defined.

(** ** Closing the descriptor *)

Lemma count_unwind_closes (fd : Z) (l : list event) :
  count_events is_unwind l = O ->
  count_events (is_compatible_close fd) l = O.
Proof.
  induction l as [| e l IH]; simpl; [reflexivity |].
  destruct e; simpl; intros Hc; try discriminate Hc; apply IH; exact Hc.
Qed.

Lemma adopt_events_closes (H : lws_header) (type fd : Z) (e : adopt_exit)
    (evs : list event) :
  adopt_events H type fd e evs ->
  count_events (is_compatible_close fd) evs = closes_on_exit H type e /\
  (forall q, e = Adopted q -> count_events is_unwind evs = O).
Proof.
  intros Hev. destruct e; cbn [adopt_events closes_on_exit] in *.
  - destruct Hev as (ty & fin & older & -> & _ & Hfin & Hold).
    cbn [finish_events] in Hfin. destruct Hfin as [_ Hfin].
    pose proof (unwind_is_milestone _ Hold) as Hold'.
    assert (Hu : count_events is_unwind fin = O).
    { destruct (1 <? LWS_MAX_SMP H).
      - destruct Hfin as (mid & old & -> & _ & Hmid & Hold2).
        cbn [count_events is_unwind Nat.add].
        rewrite count_events_app. cbn [count_events is_unwind Nat.add].
        rewrite Hmid, (unwind_is_milestone _ Hold2). reflexivity.
      - destruct Hfin as (rest & -> & _ & Hrest).
        cbn [count_events is_unwind Nat.add]. exact Hrest. }
    split.
    + rewrite count_events_app, !count_unwind_closes by assumption.
      reflexivity.
    + intros q _. rewrite count_events_app, Hu, Hold'. reflexivity.
  - split; [| intros q Hq; discriminate Hq].
    apply count_unwind_closes, unwind_is_milestone, Hev.
  - destruct Hev as (older & -> & Hold).
    split; [| intros q Hq; discriminate Hq].
    rewrite count_events_app.
    rewrite (count_unwind_closes fd older) by (apply unwind_is_milestone, Hold).
    destruct (has_flag type (LWS_ADOPT_SOCKET H)); simpl;
      [rewrite Z.eqb_refl |]; reflexivity.
  - destruct Hev as (ty & fin & older & -> & _ & Hfin & Hold).
    split; [| intros q Hq; discriminate Hq].
    cbn [finish_events] in Hfin. destruct Hfin as (_ & rest & -> & Hrest).
    rewrite !count_events_app.
    rewrite (count_unwind_closes fd rest) by exact Hrest.
    rewrite (count_unwind_closes fd older) by (apply unwind_is_milestone, Hold).
    destruct (has_flag ty (LWS_ADOPT_SOCKET H)); reflexivity.
  - destruct Hev as (pre & older & -> & Hpre & Hold).
    split; [| intros q Hq; discriminate Hq].
    cbn [count_events is_compatible_close Nat.add].
    rewrite Z.eqb_refl, count_events_app.
    rewrite (count_unwind_closes fd older) by (apply unwind_is_milestone, Hold).
    destruct Hpre as [-> | [mem ->]]; reflexivity.
Qed.

(** X12.  The adoption closes the descriptor itself exactly once on the
    bail path, once when no slot could be allocated for a socket, and
    never on any other way out; a successful adoption undoes nothing: it
    closes and frees nothing and unbinds nothing. *)
Theorem adopt_closes_descriptor (H : lws_header) (E : collaborators)
    (vh : lws_vhost) (type fd : Z) (vh_prot_name : option string)
    (parent : option wsi_ptr) (w w' : world) (e : adopt_exit) :
  lws_adopt_descriptor_vhost_exit H E vh type fd vh_prot_name parent w
    = Done e w' ->
  exists evs,
    trace w' = evs ++ trace w /\
    count_events (is_compatible_close fd) evs = closes_on_exit H type e /\
    (forall q, e = Adopted q -> count_events is_unwind evs = O).
Proof.
  intros Hrun.
  apply lws_adopt_descriptor_vhost_emits in Hrun as (evs & Ht & Hev).
  exists evs. split; [exact Ht |]. exact (adopt_events_closes _ _ _ _ _ Hev).
Qed.

Lemma adopt_closes_descriptor_witness :
  let w := sample_world in
  let w' := world_after sample_socket_rejected sample_world in
  sample_socket_rejected = Done (At_fail 1%nat) w' /\
  exists evs,
    trace w' = evs ++ trace w /\
    count_events (is_compatible_close 7) evs =
      closes_on_exit sample_header 2 (At_fail 1%nat) /\
    (forall q, At_fail 1%nat = Adopted q -> count_events is_unwind evs = O).
Proof.
  intros w w'. split; [vm_compute; reflexivity |].
  apply (adopt_closes_descriptor sample_header (sample_collaborators 0 0 0 1)
           sample_vhost 2 7 None None w w' (At_fail 1%nat)).
  vm_compute. reflexivity.
Defined.

(** ** More on prebuffered bytes *)

(** X13.  When [lws_buflist_append_segment] reports a failure for a slot in
    the poll table, [adopt_socket_readbuf] hands the slot to
    [lws_close_free_wsi] and returns NULL; it attaches no header-parsing
    context and services nothing. *)
Theorem adopt_socket_readbuf_append_failure (H : lws_header)
    (E : collaborators) (wsi : wsi_ptr) (buf : list Z) (len : Z)
    (w : world) (x : lws) :
  wsis (st w) !! wsi = Some x ->
  len <> 0 ->
  position_in_fds_table x <> LWS_NO_FDS_POS H ->
  buflist_append_ret E (st w) wsi len < 0 ->
  adopt_socket_readbuf H E (Some wsi) (Some buf) len w =
    Done None
      {| st := lws_close_free_wsi E (st w) wsi;
         trace := Ev_close_free_wsi wsi ::
                  Ev_buflist_append_segment wsi len :: trace w |}.
Proof.
  intros Hx Hlen Hpos Happ. destruct w as [[c m ps vl] t].
  cbn [st wsis trace] in *.
  apply Z.eqb_neq in Hlen. apply Z.eqb_neq in Hpos. apply Z.ltb_lt in Happ.
  destruct (adopt_socket_readbuf H E (Some wsi) (Some buf) len _)
    as [r w' |] eqn:Hrun.
  - unfold_model Hrun. rewrite Hlen, Hx in Hrun. cbv beta iota zeta in Hrun.
    destruct x; simpl in Hpos. rewrite Hpos in Hrun.
    cbv beta iota zeta in Hrun. rewrite Happ in Hrun.
    cbv beta iota zeta in Hrun. rewrite Happ in Hrun.
    symmetry. exact Hrun.
  - unfold_model Hrun. rewrite Hlen, Hx in Hrun. cbv beta iota zeta in Hrun.
    destruct x; simpl in Hpos. rewrite Hpos in Hrun.
    cbv beta iota zeta in Hrun. rewrite Happ in Hrun.
    cbv beta iota zeta in Hrun. rewrite Happ in Hrun.
    discriminate Hrun.
Qed.

Lemma adopt_socket_readbuf_append_failure_witness :
  let H := sample_header in
  let E := with_buflist_append_ret (-1) (sample_collaborators 0 0 0 0) in
  let w := sample_world_polled in
  let x := set_position_in_fds_table 0 (set_desc 7 sample_parent) in
  wsis (st w) !! 1%nat = Some x /\
  4 <> 0 /\
  position_in_fds_table x <> LWS_NO_FDS_POS H /\
  buflist_append_ret E (st w) 1%nat 4 < 0 /\
  adopt_socket_readbuf H E (Some 1%nat) (Some [71; 69; 84; 32]) 4 w =
    Done None
      {| st := lws_close_free_wsi E (st w) 1%nat;
         trace := Ev_close_free_wsi 1%nat ::
                  Ev_buflist_append_segment 1%nat 4 :: trace w |}.
Proof.
  intros H E w x.
  split; [vm_compute; reflexivity |]. split; [discriminate |].
  split; [vm_compute; discriminate |]. split; [reflexivity |].
  apply (adopt_socket_readbuf_append_failure H E 1%nat [71; 69; 84; 32] 4 w x).
  - vm_compute. reflexivity.
  - discriminate.
  - vm_compute. discriminate.
  - reflexivity.
Defined.

(** X14.  [adopt_socket_readbuf] returns either the slot it was given or
    NULL.  When it returns the slot it has not called
    [lws_close_free_wsi], and it has serviced the slot at most once; it
    returns NULL for a slot only after exactly one of the two: the
    teardown of the slot, or a service of its poll entry. *)
Theorem adopt_socket_readbuf_outcome (H : lws_header) (E : collaborators)
    (wsi : wsi_ptr) (readbuf : option (list Z)) (len : Z)
    (w w' : world) (r : option wsi_ptr) :
  adopt_socket_readbuf H E (Some wsi) readbuf len w = Done r w' ->
  exists evs,
    trace w' = evs ++ trace w /\
    ((r = Some wsi /\
      count_events (is_close_free_wsi wsi) evs = O /\
      (count_events is_service_fd_tsi evs <= 1)%nat) \/
     (r = None /\
      (count_events (is_close_free_wsi wsi) evs +
       count_events is_service_fd_tsi evs = 1)%nat)).
Proof.
  intros Hrun. destruct w as [[c m ps vl] t].
  destruct readbuf as [buf |].
  - exec Hrun.
    all: injection Hrun as <- <-; new_events.
    all: cbn [count_events is_close_free_wsi is_service_fd_tsi Nat.add].
    all: rewrite ?Nat.eqb_refl.
    all: first [ left; split; [reflexivity |]; split; [reflexivity | lia]
               | right; split; reflexivity ].
  - exec Hrun. injection Hrun as <- <-. exists [].
    split; [reflexivity |]. left. split; [reflexivity |].
    split; [reflexivity | simpl; lia].
Qed.

Lemma adopt_socket_readbuf_outcome_witness :
  let w := sample_world_polled in
  let w' := world_after sample_readbuf_oom sample_world_polled in
  sample_readbuf_oom = Done None w' /\
  exists evs,
    trace w' = evs ++ trace w /\
    ((None = Some 1%nat /\
      count_events (is_close_free_wsi 1%nat) evs = O /\
      (count_events is_service_fd_tsi evs <= 1)%nat) \/
     (@None wsi_ptr = None /\
      (count_events (is_close_free_wsi 1%nat) evs +
       count_events is_service_fd_tsi evs = 1)%nat)).
Proof.
  intros w w'. split; [vm_compute; reflexivity |].
  apply (adopt_socket_readbuf_outcome sample_header
           (with_buflist_append_ret (-1) (sample_collaborators 0 0 0 0))
           1%nat (Some [71; 69; 84; 32]) 4 w w' None).
  vm_compute. reflexivity.
Defined.



(** X16.  With no bytes to replay, [lws_adopt_socket_vhost_readbuf] and
    [lws_adopt_socket_readbuf] are [lws_adopt_socket_vhost] and
    [lws_adopt_socket]: same result, same state, same events. *)
Theorem readbuf_adoption_without_bytes (H : lws_header) (E : collaborators)
    (vh : lws_vhost) (accept_fd : Z) (readbuf : option (list Z)) (len : Z)
    (w : world) :
  readbuf = None \/ len = 0 ->
  lws_adopt_socket_vhost_readbuf H E vh accept_fd readbuf len w =
    lws_adopt_socket_vhost H E vh accept_fd w /\
  lws_adopt_socket_readbuf H E accept_fd readbuf len w =
    lws_adopt_socket H E accept_fd w.
Proof.
  intros Hcase.
  assert (Hid : forall wsi w1,
            adopt_socket_readbuf H E wsi readbuf len w1 = Done wsi w1).
  { intros wsi w1. unfold adopt_socket_readbuf.
    destruct wsi as [p |]; [| reflexivity].
    destruct readbuf as [buf |]; [| reflexivity].
    destruct Hcase as [Hnull | ->]; [discriminate Hnull | reflexivity]. }
  unfold lws_adopt_socket_vhost_readbuf, lws_adopt_socket_readbuf, bind_M.
  split.
  - destruct (lws_adopt_socket_vhost H E vh accept_fd w) as [wsi w1 |];
      [apply Hid | reflexivity].
  - destruct (lws_adopt_socket H E accept_fd w) as [wsi w1 |];
      [apply Hid | reflexivity].
Qed.

Lemma readbuf_adoption_without_bytes_witness :
  let H := sample_header in
  let E := sample_collaborators 0 0 0 0 in
  (Some [71; 69; 84; 32] = None \/ 0 = 0) /\
  lws_adopt_socket_vhost_readbuf H E sample_vhost 7 (Some [71; 69; 84; 32]) 0
    sample_world =
    lws_adopt_socket_vhost H E sample_vhost 7 sample_world /\
  lws_adopt_socket_readbuf H E 7 (Some [71; 69; 84; 32]) 0 sample_world =
    lws_adopt_socket H E 7 sample_world.
Proof.
  intros H E. split; [right; reflexivity |].
  apply (readbuf_adoption_without_bytes H E sample_vhost 7
           (Some [71; 69; 84; 32]) 0 sample_world).
  right. reflexivity.
Defined.

(** X17.  When the adoption of the socket fails, the readbuf variants
    return NULL in the world the adoption left: the bytes are not looked
    at and nothing more happens. *)
Theorem readbuf_adoption_failure (H : lws_header) (E : collaborators)
    (vh : lws_vhost) (accept_fd : Z) (readbuf : option (list Z)) (len : Z)
    (w w' : world) :
  lws_adopt_socket_vhost H E vh accept_fd w = Done None w' ->
  head (vhost_list (st w)) = Some vh ->
  lws_adopt_socket_vhost_readbuf H E vh accept_fd readbuf len w
    = Done None w' /\
  lws_adopt_socket_readbuf H E accept_fd readbuf len w = Done None w'.
Proof.
  intros Hrun Hvh.
  unfold lws_adopt_socket_vhost_readbuf, lws_adopt_socket_readbuf,
    lws_adopt_socket.
  split.
  - unfold bind_M. rewrite Hrun. reflexivity.
  - destruct w as [[c m ps vl] t]. cbn [st vhost_list] in Hvh.
    destruct vl as [| vh0 vl]; [discriminate Hvh |].
    injection Hvh as ->.
    cbv beta iota delta [bind_M get_state st vhost_list].
    rewrite Hrun. reflexivity.
Qed.

Lemma readbuf_adoption_failure_witness :
  let H := sample_header in
  let E := sample_collaborators 0 0 0 0 in
  let w := sample_world_peer_full in
  let w' := {| st := st w;
               trace := [Ev_stats_bump 0 LWSSTATS_C_PEER_LIMIT_WSI_DENIED] |} in
  lws_adopt_socket_vhost H E sample_vhost 7 w = Done None w' /\
  head (vhost_list (st w)) = Some sample_vhost /\
  lws_adopt_socket_vhost_readbuf H E sample_vhost 7 (Some [71; 69; 84; 32]) 4 w
    = Done None w' /\
  lws_adopt_socket_readbuf H E 7 (Some [71; 69; 84; 32]) 4 w = Done None w'.
Proof.
  intros H E w w'. split; [vm_compute; reflexivity |].
  split; [reflexivity |].
  apply (readbuf_adoption_failure H E sample_vhost 7 (Some [71; 69; 84; 32]) 4
           w w').
  - vm_compute. reflexivity.
  - reflexivity.
Defined.

(** ** More on UDP children *)

(** X18.  The loop over the addresses of [getaddrinfo] stops at the first
    address for which [socket] gives a valid descriptor: every address in
    front of it was tried and gave [LWS_SOCK_INVALID], no address behind it
    is tried, and when the list is exhausted every address was tried and
    failed.  The state is not changed. *)
Theorem udp_socket_loop_first_usable (H : lws_header) (E : collaborators)
    (rp : list addrinfo) (w w' : world) (found : option (Z * addrinfo)) :
  udp_socket_loop H E rp w = Done found w' ->
  st w' = st w /\
  match found with
  | Some (sockfd, ai) =>
    exists pre post,
      rp = pre ++ ai :: post /\
      Forall (fun a => socket E a = LWS_SOCK_INVALID H) pre /\
      socket E ai = sockfd /\ sockfd <> LWS_SOCK_INVALID H /\
      trace w' = Ev_socket ai :: rev (Ev_socket <$> pre) ++ trace w
  | None =>
    Forall (fun a => socket E a = LWS_SOCK_INVALID H) rp /\
    trace w' = rev (Ev_socket <$> rp) ++ trace w
  end.
Proof.
  revert w. induction rp as [| a rest IH]; intros w Hrun.
  - apply ret_inv in Hrun as [<- <-]. split; [reflexivity |].
    split; [constructor | reflexivity].
  - cbn [udp_socket_loop] in Hrun.
    apply bind_inv in Hrun as ([] & w1 & Hemit & Hrun).
    unfold emit in Hemit. injection Hemit as <-.
    destruct (socket E a =? LWS_SOCK_INVALID H) eqn:Hsock; cbn [negb] in Hrun.
    + apply Z.eqb_eq in Hsock.
      apply IH in Hrun as [Hst Hrest]. cbn [st trace] in Hst, Hrest.
      split; [exact Hst |].
      destruct found as [[sockfd ai] |].
      * destruct Hrest as (pre & post & -> & Hpre & Hai & Hvalid & Ht).
        exists (a :: pre), post. split; [reflexivity |].
        split; [constructor; assumption |].
        split; [exact Hai |]. split; [exact Hvalid |].
        rewrite Ht. cbn [fmap list_fmap rev]. rewrite <- app_assoc. reflexivity.
      * destruct Hrest as [Hall Ht].
        split; [constructor; assumption |].
        rewrite Ht. cbn [fmap list_fmap rev]. rewrite <- app_assoc. reflexivity.
    + apply Z.eqb_neq in Hsock.
      apply ret_inv in Hrun as [<- <-]. split; [reflexivity |].
      exists [], rest. split; [reflexivity |]. split; [constructor |].
      split; [reflexivity |]. split; [exact Hsock | reflexivity].
Qed.

Lemma udp_socket_loop_first_usable_witness :
  let H := sample_header in
  let E := sample_udp_collaborators 0 0 in
  let w := sample_world in
  let w' := {| st := st w;
               trace := [Ev_socket sample_ai4; Ev_socket sample_ai6] |} in
  udp_socket_loop H E [sample_ai6; sample_ai4; sample_ai4] w
    = Done (Some (9, sample_ai4)) w' /\
  st w' = st w /\
  exists pre post,
    [sample_ai6; sample_ai4; sample_ai4] = pre ++ sample_ai4 :: post /\
    Forall (fun a => socket E a = LWS_SOCK_INVALID H) pre /\
    socket E sample_ai4 = 9 /\ 9 <> LWS_SOCK_INVALID H /\
    trace w' = Ev_socket sample_ai4 :: rev (Ev_socket <$> pre) ++ trace w.
Proof.
  intros H E w w'. split; [vm_compute; reflexivity |].
  apply (udp_socket_loop_first_usable H E [sample_ai6; sample_ai4; sample_ai4]
           w w' (Some (9, sample_ai4))).
  vm_compute. reflexivity.
Defined.

(** X19.  When [getaddrinfo] fails, [lws_create_adopt_udp] returns NULL at
    once: no socket is created, nothing is adopted, and [freeaddrinfo] is
    not called. *)
Theorem lws_create_adopt_udp_getaddrinfo_failure (H : lws_header)
    (E : collaborators) (vhost : lws_vhost) (port flags : Z)
    (protocol_name : option string) (parent_wsi : option wsi_ptr)
    (w : world) :
  LWS_PLAT_OPTEE H = false ->
  fst (getaddrinfo E (to_uint port)) <> 0 ->
  lws_create_adopt_udp H E vhost port flags protocol_name parent_wsi w =
    Done None
      {| st := st w; trace := Ev_getaddrinfo (to_uint port) :: trace w |}.
Proof.
  intros Hoptee Hgai. unfold lws_create_adopt_udp. rewrite Hoptee.
  unfold bind_M at 1. unfold emit at 1.
  destruct (getaddrinfo E (to_uint port)) as [n ais]. cbn [fst] in Hgai.
  apply Z.eqb_neq in Hgai. rewrite Hgai. reflexivity.
Qed.

Lemma lws_create_adopt_udp_getaddrinfo_failure_witness :
  let H := sample_header in
  let E := sample_udp_collaborators (-2) 0 in
  let w := sample_world in
  LWS_PLAT_OPTEE H = false /\
  fst (getaddrinfo E (to_uint 5000)) <> 0 /\
  lws_create_adopt_udp H E sample_vhost 5000 0 None None w =
    Done None
      {| st := st w; trace := Ev_getaddrinfo (to_uint 5000) :: trace w |}.
Proof.
  intros H E w. split; [reflexivity |]. split; [vm_compute; discriminate |].
  apply (lws_create_adopt_udp_getaddrinfo_failure H E sample_vhost 5000 0
           None None w).
  - reflexivity.
  - vm_compute. discriminate.
Defined.

Lemma quiet_loop_freeaddrinfo (H : lws_header) (E : collaborators)
    (rp : list addrinfo) :
  quiet is_freeaddrinfo (udp_socket_loop H E rp).
Proof.
  induction rp as [| ai rest IH]; simpl.
  - apply emits_ret. reflexivity.
  - apply quiet_bind; [apply emits_emit; reflexivity | intros _].
    destruct (negb (socket E ai =? LWS_SOCK_INVALID H));
      [apply emits_ret; reflexivity | exact IH].
Qed.

Lemma quiet_adopt_freeaddrinfo (H : lws_header) (E : collaborators)
    (vh : lws_vhost) (type fd : Z) (vh_prot_name : option string)
    (parent : option wsi_ptr) :
  quiet is_freeaddrinfo
    (lws_adopt_descriptor_vhost H E vh type fd vh_prot_name parent).
Proof. quiet_tac. Qed.

(** X20.  [lws_create_adopt_udp] releases the address list exactly once on
    every way out that follows a successful [getaddrinfo], and never
    otherwise. *)
Theorem lws_create_adopt_udp_frees_addresses (H : lws_header)
    (E : collaborators) (vhost : lws_vhost) (port flags : Z)
    (protocol_name : option string) (parent_wsi : option wsi_ptr)
    (w w' : world) (r : option wsi_ptr) :
  lws_create_adopt_udp H E vhost port flags protocol_name parent_wsi w
    = Done r w' ->
  exists evs,
    trace w' = evs ++ trace w /\
    count_events is_freeaddrinfo evs =
      if LWS_PLAT_OPTEE H then O
      else if fst (getaddrinfo E (to_uint port)) =? 0 then 1%nat else O.
Proof.
  intros Hrun. unfold lws_create_adopt_udp in Hrun.
  destruct (LWS_PLAT_OPTEE H).
  { apply ret_inv in Hrun as [_ <-]. exists []. split; reflexivity. }
  apply bind_inv in Hrun as ([] & w1 & Hemit & Hrun).
  unfold emit in Hemit. injection Hemit as <-.
  destruct (getaddrinfo E (to_uint port)) as [n ais]. cbn [fst].
  destruct (n =? 0); cbn [negb] in Hrun.
  2:{ apply ret_inv in Hrun as [_ <-]. eexists [_]. split; reflexivity. }
  apply bind_inv in Hrun as (found & w2 & Hloop & Hrun).
  apply quiet_loop_freeaddrinfo in Hloop as (e1 & Ht1 & Hc1).
  cbn [trace] in Ht1.
  destruct found as [[sockfd rp] |].
  - apply bind_inv in Hrun as (unbound & w3 & Hbind & Hrun).
    assert (Hq3 : exists e3, trace w3 = e3 ++ trace w2 /\
                             count_events is_freeaddrinfo e3 = O).
    { destruct (has_flag flags (LWS_CAUDP_BIND H)).
      - unfold bind_M, emit, ret in Hbind. injection Hbind as _ <-.
        eexists [_]. split; reflexivity.
      - apply ret_inv in Hbind as [_ <-]. exists []. split; reflexivity. }
    destruct Hq3 as (e3 & Ht3 & Hc3).
    apply bind_inv in Hrun as (wsi & w4 & Hadopt & Hrun).
    assert (Hq4 : exists e4, trace w4 = e4 ++ trace w3 /\
                             count_events is_freeaddrinfo e4 = O).
    { destruct unbound.
      - apply ret_inv in Hadopt as [_ <-]. exists []. split; reflexivity.
      - exact (quiet_adopt_freeaddrinfo _ _ _ _ _ _ _ _ _ _ Hadopt). }
    destruct Hq4 as (e4 & Ht4 & Hc4).
    destruct w4 as [s4 t4]. cbn [trace] in Ht4.
    destruct (negb (bool_decide (is_Some wsi))).
    + unfold_model Hrun. injection Hrun as _ <-. cbn [trace].
      exists (Ev_freeaddrinfo :: Ev_compatible_close sockfd :: e4 ++ e3 ++
              e1 ++ [Ev_getaddrinfo (to_uint port)]).
      split.
      * rewrite Ht4, Ht3, Ht1. cbn [app]. rewrite <- !app_assoc. reflexivity.
      * cbn [count_events is_freeaddrinfo Nat.add].
        rewrite !count_events_app, Hc4, Hc3, Hc1. reflexivity.
    + unfold_model Hrun. injection Hrun as _ <-. cbn [trace].
      exists (Ev_freeaddrinfo :: e4 ++ e3 ++
              e1 ++ [Ev_getaddrinfo (to_uint port)]).
      split.
      * rewrite Ht4, Ht3, Ht1. cbn [app]. rewrite <- !app_assoc. reflexivity.
      * cbn [count_events is_freeaddrinfo Nat.add].
        rewrite !count_events_app, Hc4, Hc3, Hc1. reflexivity.
  - destruct w2 as [s2 t2]. cbn [trace] in Ht1.
    unfold_model Hrun. injection Hrun as _ <-. cbn [trace].
    exists (Ev_freeaddrinfo :: e1 ++ [Ev_getaddrinfo (to_uint port)]).
    split.
    + rewrite Ht1. cbn [app]. rewrite <- !app_assoc. reflexivity.
    + cbn [count_events is_freeaddrinfo Nat.add].
      rewrite !count_events_app, Hc1. reflexivity.
Qed.

Lemma lws_create_adopt_udp_frees_addresses_witness :
  let w := sample_world in
  let w' := world_after sample_udp_child_bailed sample_world in
  sample_udp_child_bailed = Done None w' /\
  exists evs,
    trace w' = evs ++ trace w /\
    count_events is_freeaddrinfo evs =
      if LWS_PLAT_OPTEE sample_header then O
      else if fst (getaddrinfo (sample_collaborators 1 0 0 0) (to_uint 5000))
                =? 0 then 1%nat else O.
Proof.
  intros w w'. split; [vm_compute; reflexivity |].
  apply (lws_create_adopt_udp_frees_addresses sample_header
           (sample_collaborators 1 0 0 0) sample_vhost 5000 0 None
           (Some 0%nat) w w' None).
  vm_compute. reflexivity.
Defined.

(** X21.  When the caller asked for [bind] and it fails, the new socket is
    closed once, the address list is released, and NULL is returned: the
    adoption is not attempted, so no slot is allocated and the state is as
    the socket creation left it. *)
Theorem lws_create_adopt_udp_bind_failure (H : lws_header)
    (E : collaborators) (vhost : lws_vhost) (port flags : Z)
    (protocol_name : option string) (parent_wsi : option wsi_ptr)
    (w w1 : world) (ais : list addrinfo) (sockfd : Z) (rp : addrinfo) :
  LWS_PLAT_OPTEE H = false ->
  getaddrinfo E (to_uint port) = (0, ais) ->
  udp_socket_loop H E ais
    {| st := st w; trace := Ev_getaddrinfo (to_uint port) :: trace w |}
    = Done (Some (sockfd, rp)) w1 ->
  has_flag flags (LWS_CAUDP_BIND H) = true ->
  bind E sockfd rp = -1 ->
  lws_create_adopt_udp H E vhost port flags protocol_name parent_wsi w =
    Done None
      {| st := st w1;
         trace := Ev_freeaddrinfo :: Ev_compatible_close sockfd ::
                  Ev_bind sockfd :: trace w1 |}.
Proof.
  intros Hoptee Hgai Hloop Hflag Hbind.
  unfold lws_create_adopt_udp. rewrite Hoptee, Hflag.
  unfold bind_M at 1. unfold emit at 1. rewrite Hgai. cbv beta iota.
  change (negb (0 =? 0)) with false. cbv iota.
  unfold bind_M at 1. rewrite Hloop. cbv beta iota.
  rewrite Hbind. reflexivity.
Qed.

Lemma lws_create_adopt_udp_bind_failure_witness :
  let H := sample_header in
  let E := sample_udp_collaborators 0 (-1) in
  let w := sample_world in
  let w1 := {| st := st w;
               trace := [Ev_socket sample_ai4; Ev_socket sample_ai6;
                         Ev_getaddrinfo (to_uint 5000)] |} in
  LWS_PLAT_OPTEE H = false /\
  getaddrinfo E (to_uint 5000) = (0, [sample_ai6; sample_ai4]) /\
  udp_socket_loop H E [sample_ai6; sample_ai4]
    {| st := st w; trace := Ev_getaddrinfo (to_uint 5000) :: trace w |}
    = Done (Some (9, sample_ai4)) w1 /\
  has_flag 1 (LWS_CAUDP_BIND H) = true /\
  bind E 9 sample_ai4 = -1 /\
  lws_create_adopt_udp H E sample_vhost 5000 1 None None w =
    Done None
      {| st := st w1;
         trace := Ev_freeaddrinfo :: Ev_compatible_close 9 ::
                  Ev_bind 9 :: trace w1 |}.
Proof.
  intros H E w w1.
  split; [reflexivity |]. split; [reflexivity |].
  split; [vm_compute; reflexivity |]. split; [reflexivity |].
  split; [reflexivity |].
  apply (lws_create_adopt_udp_bind_failure H E sample_vhost 5000 1 None None
           w w1 [sample_ai6; sample_ai4] 9 sample_ai4).
  - reflexivity.
  - reflexivity.
  - vm_compute. reflexivity.
  - reflexivity.
  - reflexivity.
Defined.



(** ** The callback comes after the hand-over *)






(** ** An accepted socket when every thread is full *)

(** X24.  When the selector finds no service thread with room and the
    context has no peer ceiling, [lws_adopt_socket_vhost] closes the
    accepted socket and returns NULL; the context and the allocated
    objects are untouched and the close is the only event. *)
Theorem lws_adopt_socket_vhost_no_room (H : lws_header) (E : collaborators)
    (vh : lws_vhost) (accept_fd : Z) (w : world) (n : Z) :
  LWS_ADOPT_SOCKET H <> 0 ->
  ip_limit_wsi (the_context (st w)) = 0 ->
  lws_get_idlest_tsi (the_context (st w)) = Some n ->
  n < 0 ->
  exists w',
    lws_adopt_socket_vhost H E vh accept_fd w = Done None w' /\
    the_context (st w') = the_context (st w) /\
    wsis (st w') = wsis (st w) /\
    trace w' = Ev_compatible_close accept_fd :: trace w.
Proof.
  intros Hsock Hlim Hsel Hn. destruct w as [[c m ps vl] t].
  cbn [st the_context] in Hlim, Hsel.
  assert (Hflag : has_flag
            (Z.lor (Z.lor (LWS_ADOPT_SOCKET H) (LWS_ADOPT_HTTP H))
                   (LWS_ADOPT_ALLOW_SSL H)) (LWS_ADOPT_SOCKET H) = true).
  { unfold has_flag. apply negb_true_iff, Z.eqb_neq.
    replace (Z.land (Z.lor (Z.lor (LWS_ADOPT_SOCKET H) (LWS_ADOPT_HTTP H))
                           (LWS_ADOPT_ALLOW_SSL H)) (LWS_ADOPT_SOCKET H))
      with (LWS_ADOPT_SOCKET H); [exact Hsock |].
    apply Z.bits_inj'. intros i Hi.
    rewrite Z.land_spec, !Z.lor_spec.
    destruct (Z.testbit (LWS_ADOPT_SOCKET H) i); simpl;
      [reflexivity | symmetry; apply andb_false_r]. }
  apply Z.ltb_lt in Hn.
  destruct (lws_adopt_socket_vhost H E vh accept_fd _) as [r w' |] eqn:Hrun.
  - exists w'. unfold lws_adopt_socket_vhost in Hrun.
    exec_with ltac:(first [ rewrite Hflag in Hrun | rewrite Hlim in Hrun
                          | rewrite Hsel in Hrun | rewrite Hn in Hrun ]) Hrun.
    all: try discriminate.
    all: injection Hrun as <- <-; cbn; auto.
  - exfalso. unfold lws_adopt_socket_vhost in Hrun.
    exec_with ltac:(first [ rewrite Hflag in Hrun | rewrite Hlim in Hrun
                          | rewrite Hsel in Hrun | rewrite Hn in Hrun ]) Hrun.
    all: try discriminate.
Qed.

Lemma lws_adopt_socket_vhost_no_room_witness :
  let H := sample_header in
  let E := sample_collaborators 0 0 0 0 in
  let w := sample_world_full_unlimited in
  LWS_ADOPT_SOCKET H <> 0 /\
  ip_limit_wsi (the_context (st w)) = 0 /\
  lws_get_idlest_tsi (the_context (st w)) = Some (-1) /\
  -1 < 0 /\
  exists w',
    lws_adopt_socket_vhost H E sample_vhost 7 w = Done None w' /\
    the_context (st w') = the_context (st w) /\
    wsis (st w') = wsis (st w) /\
    trace w' = Ev_compatible_close 7 :: trace w.
Proof.
  intros H E w.
  split; [vm_compute; discriminate |]. split; [reflexivity |].
  split; [vm_compute; reflexivity |]. split; [lia |].
  apply (lws_adopt_socket_vhost_no_room H E sample_vhost 7 w (-1)).
  - vm_compute. discriminate.
  - reflexivity.
  - vm_compute. reflexivity.
  - lia.
Defined.
